(** * Shallow embedding of scripts/update_coffee_embeddings.py

    The coffee-embedding updater: the change detector [get_coffee_data], the
    fallback generator [generate_fallback_embedding], the OpenAI adapter
    [generate_openai_embedding], the per-record step [update_coffee_embedding],
    the batch loop of [main] and the [__main__] guard.

    Python floats are modelled through the small interface [PyFloat]: the
    primitive binary64 floats of the kernel give an executable instance, the
    real numbers an exact-arithmetic one.  Remote services (OpenAI, the
    Supabase RPC) and Python's per-process string hash are parameters. *)

From Stdlib Require Import List String Ascii ZArith Bool Lia.
From Stdlib Require Import Floats.
From Stdlib Require Import Reals Lra.
Import ListNotations.

(* ------------------------------------------------------------------ *)
(** ** Python helpers *)

Module Py.

(** [str.lower] on ASCII text. *)
Definition lower_char (c : ascii) : ascii :=
  let n := nat_of_ascii c in
  if (65 <=? n)%nat && (n <=? 90)%nat then ascii_of_nat (n + 32) else c.

Fixpoint lower (s : string) : string :=
  match s with
  | EmptyString => EmptyString
  | String c s' => String (lower_char c) (lower s')
  end.

(** [pat in s] for strings. *)
Fixpoint contains (pat s : string) : bool :=
  prefix pat s ||
  match s with
  | EmptyString => false
  | String _ s' => contains pat s'
  end.

(** [str(n)] for a non-negative int. *)
Fixpoint digits_rev (fuel n : nat) : list ascii :=
  match fuel with
  | O => []
  | S f =>
      let d := ascii_of_nat (48 + n mod 10) in
      if (n <? 10)%nat then [d] else d :: digits_rev f (n / 10)
  end.

Definition str_of_nat (n : nat) : string :=
  string_of_list_ascii (rev (digits_rev (S n) n)).

(** Truthiness of an optional string (JSON null or text). *)
Definition truthy_str (o : option string) : bool :=
  match o with
  | None => false
  | Some s => negb (String.eqb s EmptyString)
  end.

(** [a > b] on str: lexicographic order. *)
Definition str_gt (a b : string) : bool :=
  match String.compare a b with Gt => true | _ => false end.

End Py.

(* ------------------------------------------------------------------ *)
(** ** Float interface *)

Class PyFloat (F : Type) := {
  f_add : F -> F -> F;
  f_mul : F -> F -> F;
  f_div : F -> F -> F;
  f_sqrt : F -> F;
  f_of_Z : Z -> F;
  f_is_zero : F -> bool
}.

(** A decimal literal [n/d] is the correctly rounded quotient of two exact
    integers, i.e. the float the literal denotes. *)
Definition lit {F} `{PyFloat F} (n d : Z) : F := f_div (f_of_Z n) (f_of_Z d).

Definition prim_of_Z (z : Z) : float :=
  if (z <? 0)%Z then PrimFloat.opp (PrimFloat.of_uint63 (Uint63.of_Z (- z)))
  else PrimFloat.of_uint63 (Uint63.of_Z z).

#[global] Instance PyFloat_prim : PyFloat float := {
  f_add := PrimFloat.add;
  f_mul := PrimFloat.mul;
  f_div := PrimFloat.div;
  f_sqrt := PrimFloat.sqrt;
  f_of_Z := prim_of_Z;
  f_is_zero := fun x => PrimFloat.eqb x (prim_of_Z 0)
}.

Definition R_is_zero (x : R) : bool := if Req_EM_T x 0%R then true else false.

#[global] Instance PyFloat_R : PyFloat R := {
  f_add := Rplus;
  f_mul := Rmult;
  f_div := Rdiv;
  f_sqrt := sqrt;
  f_of_Z := IZR;
  f_is_zero := R_is_zero
}.

(* ------------------------------------------------------------------ *)
(** ** generate_fallback_embedding *)

Definition VECTOR_DIMENSIONS : nat := 1536.

Section Fallback.
Context {F : Type} `{PyFloat F}.
(** Python's [hash] on str, fixed for one process (seeded per process). *)
Variable py_hash : string -> Z.

(** The dict literal, in its (insertion) iteration order. *)
Definition flavor_map : list (string * list F) :=
  [ ("fruity"%string,    [lit 8 10; lit 2 10; lit 1 10; lit 0 10; lit 3 10]);
    ("chocolate"%string, [lit 2 10; lit 9 10; lit 4 10; lit 1 10; lit 1 10]);
    ("nutty"%string,     [lit 3 10; lit 5 10; lit 8 10; lit 2 10; lit 1 10]);
    ("floral"%string,    [lit 7 10; lit 1 10; lit 2 10; lit 1 10; lit 6 10]);
    ("spicy"%string,     [lit 4 10; lit 2 10; lit 7 10; lit 5 10; lit 3 10]);
    ("sweet"%string,     [lit 5 10; lit 6 10; lit 3 10; lit 1 10; lit 2 10]);
    ("bitter"%string,    [lit 1 10; lit 4 10; lit 5 10; lit 8 10; lit 1 10]);
    ("acidic"%string,    [lit 6 10; lit 2 10; lit 1 10; lit 7 10; lit 4 10]) ].

(** The inner [for flavor, vector in flavor_map.items()] with its [break]. *)
Fixpoint find_flavor (tag_lower : string) (m : list (string * list F))
  : option (list F) :=
  match m with
  | [] => None
  | (flavor, vector) :: m' =>
      if Py.contains flavor tag_lower then Some vector
      else find_flavor tag_lower m'
  end.

(** One iteration of [for tag in flavor_tags]. *)
Definition fallback_step (base_vector : list F) (tag : string) : list F :=
  match find_flavor (Py.lower tag) flavor_map with
  | Some vector =>
      map (fun '(base, flavor_val) => f_add base (f_mul (lit 5 10) flavor_val))
          (combine base_vector vector)
  | None => map (fun val => f_add val (lit 5 100)) base_vector
  end.

Definition base_of_tags (flavor_tags : list string) : list F :=
  fold_left fallback_step flavor_tags (repeat (lit 1 10) 5).

(** [sum(val**2 for val in base_vector) ** 0.5]; [sum] starts from int 0. *)
Definition magnitude (v : list F) : F :=
  f_sqrt (fold_left (fun acc val => f_add acc (f_mul val val)) v (f_of_Z 0)).

(** [x / y] raises ZeroDivisionError when [y] is zero: [None]. *)
Definition py_div (x y : F) : option F :=
  if f_is_zero y then None else Some (f_div x y).

Fixpoint omap {A B} (f : A -> option B) (l : list A) : option (list B) :=
  match l with
  | [] => Some []
  | x :: l' =>
      match f x with
      | None => None
      | Some y => match omap f l' with None => None | Some ys => Some (y :: ys) end
      end
  end.

Definition normalize (base_vector : list F) : option (list F) :=
  let m := magnitude base_vector in omap (fun val => py_div val m) base_vector.

(** [val * (0.95 + (hash(str(len(full_embedding))) % 10) / 100)] *)
Definition variation (full_embedding : list F) (val : F) : F :=
  f_mul val (f_add (lit 95 100)
    (f_div (f_of_Z (Z.modulo (py_hash (Py.str_of_nat (List.length full_embedding))) 10))
           (f_of_Z 100))).

(** The inner [for val in normalized] loop, with its [break]. *)
Fixpoint extend_inner (normalized full_embedding : list F) : list F :=
  match normalized with
  | [] => full_embedding
  | val :: rest =>
      let full' := full_embedding ++ [variation full_embedding val] in
      if (VECTOR_DIMENSIONS <=? List.length full')%nat then full'
      else extend_inner rest full'
  end.

(** The [while len(full_embedding) < VECTOR_DIMENSIONS] loop; [None] when it
    would not terminate within [fuel] rounds. *)
Fixpoint extend_outer (fuel : nat) (normalized full_embedding : list F)
  : option (list F) :=
  if (List.length full_embedding <? VECTOR_DIMENSIONS)%nat then
    match fuel with
    | O => None
    | S f => extend_outer f normalized (extend_inner normalized full_embedding)
    end
  else Some full_embedding.

(** [None]: the call raises (ZeroDivisionError) or does not terminate. *)
Definition generate_fallback_embedding (flavor_tags : list string)
  : option (list F) :=
  match normalize (base_of_tags flavor_tags) with
  | None => None
  | Some normalized =>
      match extend_outer VECTOR_DIMENSIONS normalized [] with
      | None => None
      | Some full => Some (firstn VECTOR_DIMENSIONS full)
      end
  end.

End Fallback.

(* ------------------------------------------------------------------ *)
(** ** Catalog records and get_coffee_data *)

(** A row of [coffees] as the Supabase client returns it (JSON null as [None]). *)
Record coffee := mk_coffee {
  c_id : Z;
  c_coffee_name : option string;
  c_flavor_tags : option (list string);
  c_updated_at : option string;
  c_created_at : option string;
  c_flavor_embedding : option string
}.

(** [coffee.get("updated_at") or coffee.get("created_at")] *)
Definition coffee_updated (c : coffee) : option string :=
  if Py.truthy_str (c_updated_at c) then c_updated_at c else c_created_at c.

(** [coffee_updated and coffee_updated > last_update_time]; comparing a str with
    [None] raises TypeError: [None]. *)
Definition updated_since (cu last_update_time : option string) : option bool :=
  match cu with
  | Some u =>
      if Py.truthy_str cu then
        match last_update_time with
        | Some t => Some (Py.str_gt u t)
        | None => None
        end
      else Some false
  | None => Some false
  end.

(** The [for coffee in coffees] filter loop. *)
Fixpoint filter_need_update (last_update_time : option string) (coffees : list coffee)
  : option (list coffee) :=
  match coffees with
  | [] => Some []
  | coffee :: rest =>
      match updated_since (coffee_updated coffee) last_update_time,
            filter_need_update last_update_time rest with
      | Some b, Some need_update =>
          if b || negb (Py.truthy_str (c_flavor_embedding coffee))
          then Some (coffee :: need_update) else Some need_update
      | _, _ => None
      end
  end.

(** [coffees_resp]: [response.data] of the [coffees] query, [None] when the
    query raises; [logs_resp]: the [created_at] column of [update_logs], [None]
    when that query raises.  Every exception ends in [return []]. *)
Definition get_coffee_data (coffees_resp : option (list coffee))
  (logs_resp : option (list (option string))) (force_all : bool) : list coffee :=
  match coffees_resp with
  | None => []
  | Some [] => []
  | Some coffees =>
      if force_all then coffees
      else
        match logs_resp with
        | None => coffees
        | Some [] => coffees
        | Some (last_update_time :: _) =>
            match filter_need_update last_update_time coffees with
            | Some need_update => need_update
            | None => []
            end
        end
  end.

(* ------------------------------------------------------------------ *)
(** ** The runner *)

(** Exceptions that can leave [main]. *)
Inductive exn := KeyboardInterrupt | ZeroDivisionError | ValueError | OverflowError.

Inductive outcome (A : Type) := Ok (a : A) | Raise (e : exn).
Arguments Ok {A} a.
Arguments Raise {A} e.

(** What [supabase.rpc("update_coffee_flavor_vector", ...).execute()] gives:
    [result.data is True], any other data, or an exception. *)
Inductive rpc_result := RpcTrue | RpcNotTrue | RpcRaise.

(** Observable calls: the skip warning, the two generators, the RPC. *)
Inductive event :=
| EvWarnNoTags (coffee_id : Z)
| EvOpenAI (text : string)
| EvFallback (flavor_tags : list string)
| EvRPC (coffee_id : Z) (embedding_str : string).

Record run_state := mk_state { updated : nat; failed : nat; trace : list event }.

Definition tags_falsy (o : option (list string)) : bool :=
  match o with None | Some [] => true | Some _ => false end.

Fixpoint join (sep : string) (l : list string) : string :=
  match l with
  | [] => EmptyString
  | [x] => x
  | x :: l' => (x ++ sep ++ join sep l')%string
  end.

Section Runner.
Context {F : Type} `{PyFloat F}.
Variable py_hash : string -> Z.
(** [client.embeddings.create(...).data[0].embedding]; [None] when it raises. *)
Variable openai_embed : string -> option (list F).
Variable rpc_update : Z -> string -> rpc_result.
(** [str(float(x))] *)
Variable float_str : F -> string.

Definition generate_openai_embedding (flavor_tags : list string) : option (list F) :=
  match openai_embed (join ", " flavor_tags) with
  | None => None
  | Some embedding =>
      if (List.length embedding =? VECTOR_DIMENSIONS)%nat then Some embedding else None
  end.

Definition update_coffee_embedding (has_openai dry_run : bool) (coffee : coffee)
  (tr : list event) : outcome (bool * list event) :=
  let coffee_id := c_id coffee in
  match c_flavor_tags coffee with
  | None | Some [] => Ok (false, tr ++ [EvWarnNoTags coffee_id])
  | Some flavor_tags =>
      let gen : outcome (option (list F) * list event) :=
        if has_openai then
          Ok (generate_openai_embedding flavor_tags,
              tr ++ [EvOpenAI (join ", " flavor_tags)])
        else
          match generate_fallback_embedding py_hash flavor_tags with
          | Some e => Ok (Some e, tr ++ [EvFallback flavor_tags])
          | None => Raise ZeroDivisionError
          end in
      match gen with
      | Raise e => Raise e
      | Ok (None, tr') | Ok (Some [], tr') => Ok (false, tr')
      | Ok (Some embedding, tr') =>
          let embedding_str := ("[" ++ join "," (map float_str embedding) ++ "]")%string in
          if dry_run then Ok (true, tr')
          else
            match rpc_update coffee_id embedding_str with
            | RpcTrue => Ok (true, tr' ++ [EvRPC coffee_id embedding_str])
            | _ => Ok (false, tr' ++ [EvRPC coffee_id embedding_str])
            end
      end
  end.

(** Body of [for coffee in batch]: call, then [updated += 1] or [failed += 1]. *)
Definition process_coffee (has_openai dry_run : bool) (st : run_state) (c : coffee)
  : outcome run_state :=
  match update_coffee_embedding has_openai dry_run c (trace st) with
  | Raise e => Raise e
  | Ok (true, tr) => Ok (mk_state (S (updated st)) (failed st) tr)
  | Ok (false, tr) => Ok (mk_state (updated st) (S (failed st)) tr)
  end.

Fixpoint process_all (has_openai dry_run : bool) (st : run_state) (cs : list coffee)
  : outcome run_state :=
  match cs with
  | [] => Ok st
  | c :: cs' =>
      match process_coffee has_openai dry_run st c with
      | Raise e => Raise e
      | Ok st' => process_all has_openai dry_run st' cs'
      end
  end.

Fixpoint process_batches (has_openai dry_run : bool) (st : run_state)
  (bl : list (list coffee)) : outcome run_state :=
  match bl with
  | [] => Ok st
  | batch :: bl' =>
      match process_all has_openai dry_run st batch with
      | Raise e => Raise e
      | Ok st' => process_batches has_openai dry_run st' bl'
      end
  end.

End Runner.

(* ------------------------------------------------------------------ *)
(** ** The batch loop and main *)

(** [range(i, stop, step)] for [step > 0], with [stop] rounds of fuel. *)
Fixpoint range_from (fuel i stop step : nat) : list nat :=
  match fuel with
  | O => []
  | S f => if (i <? stop)%nat then i :: range_from f (i + step) stop step else []
  end.

(** [batch = coffees[i:i+batch_size]] for [i in range(0, total_coffees, batch_size)]. *)
Definition batches {A} (coffees : list A) (batch_size : nat) : list (list A) :=
  map (fun i => firstn batch_size (skipn i coffees))
      (range_from (List.length coffees) 0 (List.length coffees) batch_size).

Section Main.
Context {F : Type} `{PyFloat F}.
Variable py_hash : string -> Z.
Variable openai_embed : string -> option (list F).
Variable rpc_update : Z -> string -> rpc_result.
Variable float_str : F -> string.

(** The [for i in range(0, total_coffees, batch_size)] loop: a zero step raises
    ValueError, a negative one gives an empty range.  The waits and log lines of
    the loop are left out here; [timed_loop] below has them. *)
Definition run_loop (has_openai dry_run : bool) (batch_size : Z) (coffees : list coffee)
  (st : run_state) : outcome run_state :=
  if (batch_size =? 0)%Z then Raise ValueError
  else if (batch_size <? 0)%Z then Ok st
  else process_batches py_hash openai_embed rpc_update float_str has_openai dry_run st
         (batches coffees (Z.to_nat batch_size)).

(** Command-line arguments, environment and what the gateway answers. *)
Record env := mk_env {
  arg_supabase_url : option string;
  arg_supabase_key : option string;
  arg_openai_key : option string;
  env_supabase_url : option string;
  env_supabase_key : option string;
  env_openai_key : option string;
  create_client_ok : bool;
  coffees_resp : option (list coffee);
  logs_resp : option (list (option string));
  force_all : bool;
  batch_size : Z;
  dry_run : bool;
  user_input : string
}.

(** [a or b] on optional strings. *)
Definition py_or (a b : option string) : option string :=
  if Py.truthy_str a then a else b.

(** How [main()] ends: it returns (with the final counters when the loop ran),
    it calls [sys.exit], or an exception escapes. *)
Inductive main_outcome :=
| MReturn (final : option run_state)
| MExit (code : Z)
| MRaise (e : exn).

Definition main (e : env) : main_outcome :=
  let supabase_url := py_or (arg_supabase_url e) (env_supabase_url e) in
  let supabase_key := py_or (arg_supabase_key e) (env_supabase_key e) in
  let openai_key := py_or (arg_openai_key e) (env_openai_key e) in
  if negb (Py.truthy_str supabase_url) || negb (Py.truthy_str supabase_key) then MExit 1
  else
    let has_openai := Py.truthy_str openai_key in
    if negb (create_client_ok e) then MExit 1
    else
      match get_coffee_data (coffees_resp e) (logs_resp e) (force_all e) with
      | [] => MReturn None
      | coffees =>
          if negb has_openai && negb (force_all e)
             && negb (String.eqb (Py.lower (user_input e)) "y") then MReturn None
          else
            match run_loop has_openai (dry_run e) (batch_size e) coffees
                    (mk_state 0 0 []) with
            | Ok st => MReturn (Some st)
            | Raise ex => MRaise ex
            end
      end.

(** The [if __name__ == "__main__"] guard: [interrupted] is a KeyboardInterrupt
    delivered while [main()] runs.  Returning from [main] exits with 0. *)
Definition guard_exit (r : main_outcome) : Z :=
  match r with
  | MReturn _ => 0
  | MExit code => code
  | MRaise KeyboardInterrupt => 1
  | MRaise _ => 1
  end.

Definition run_script (e : env) (interrupted : bool) : Z :=
  guard_exit (if interrupted then MRaise KeyboardInterrupt else main e).

End Main.

(* ------------------------------------------------------------------ *)
(** ** Concrete fixtures *)

Module Fixtures.

(** One hash seed per process: a few stand-ins for [hash] on str. *)
Definition hash_const (k : Z) : string -> Z := fun _ => k.
Definition hash_zero_one : string -> Z :=
  fun s => if String.eqb s "0" then 1%Z else 0%Z.

Definition openai_down : string -> option (list float) := fun _ => None.
Definition openai_short : string -> option (list float) := fun _ => Some [1%float].
Definition rpc_all_true : Z -> string -> rpc_result := fun _ _ => RpcTrue.
Definition rpc_all_false : Z -> string -> rpc_result := fun _ _ => RpcNotTrue.
Definition float_repr : float -> string := fun _ => "0.1"%string.

Definition coffee_at (id : Z) (tags : list string) (upd : option string)
  (emb : option string) : coffee :=
  mk_coffee id (Some "House"%string) (Some tags) upd (Some "2024-01-01T00:00:00"%string) emb.

Definition old_embedded : coffee :=
  coffee_at 1 ["fruity"%string] (Some "2024-02-01T00:00:00"%string) (Some "[0.1]"%string).
Definition new_embedded : coffee :=
  coffee_at 2 ["nutty"%string] (Some "2024-04-01T00:00:00"%string) (Some "[0.1]"%string).
Definition old_unembedded : coffee :=
  coffee_at 3 ["sweet"%string] (Some "2024-02-01T00:00:00"%string) None.
Definition untagged : coffee :=
  coffee_at 4 [] (Some "2024-04-01T00:00:00"%string) None.

Definition last_sync : string := "2024-03-01T00:00:00".

Definition thirteen : list coffee :=
  map (fun k => coffee_at (Z.of_nat k) ["chocolate"%string] None None) (seq 0 13).

(** A run without an OpenAI key, forced over 13 records, in batches of [bs]. *)
Definition env_with (coffees_resp : option (list coffee)) (bs : Z) : env :=
  mk_env (Some "https://db.example"%string) (Some "service-key"%string) None
    None None None true coffees_resp None true bs false "n"%string.

Definition env_thirteen : env := env_with (Some thirteen) 5.
Definition env_zero_batch : env := env_with (Some thirteen) 0.
Definition env_gateway_down : env := env_with None 5.

Definition final_state (r : main_outcome) : run_state :=
  match r with MReturn (Some st) => st | _ => mk_state 0 0 [] end.

Definition st_thirteen : run_state :=
  final_state (main (hash_const 0) openai_down rpc_all_true float_repr env_thirteen).

End Fixtures.

(* ------------------------------------------------------------------ *)
(** ** Readings of the spec's wording *)

(** The spec's reading: [updated_at], or [created_at] when [updated_at] is absent. *)
Definition effective_ts (c : coffee) : option string :=
  match c_updated_at c with Some u => Some u | None => c_created_at c end.

Definition later_than (o : option string) (t : string) : Prop :=
  match o with Some s => Py.str_gt s t = true | None => False end.

Definition embedding_absent (c : coffee) : Prop :=
  c_flavor_embedding c = None \/ c_flavor_embedding c = Some ""%string.

Definition keep_since (t : string) (c : coffee) : bool :=
  match coffee_updated c with
  | Some u => Py.truthy_str (Some u) && Py.str_gt u t
  | None => false
  end || negb (Py.truthy_str (c_flavor_embedding c)).

(** The same row with other flavor tags. *)
Definition set_tags (g : coffee -> option (list string)) (c : coffee) : coffee :=
  mk_coffee (c_id c) (c_coffee_name c) (g c) (c_updated_at c) (c_created_at c)
    (c_flavor_embedding c).

(** "Consecutive batches of [bs], only the last one possibly shorter." *)
Inductive batched {A : Type} (bs : nat) : list (list A) -> Prop :=
| batched_nil : batched bs []
| batched_last (b : list A) :
    (0 < List.length b <= bs)%nat -> batched bs [b]
| batched_cons (b b' : list A) (bl : list (list A)) :
    List.length b = bs -> batched bs (b' :: bl) -> batched bs (b :: b' :: bl).

(** Counting the calls of a trace. *)
Definition is_rpc (ev : event) : bool :=
  match ev with EvRPC _ _ => true | _ => false end.

Definition is_generation (ev : event) : bool :=
  match ev with EvOpenAI _ | EvFallback _ => true | _ => false end.

Definition is_failed_rpc (rpc_update : Z -> string -> rpc_result) (ev : event) : bool :=
  match ev with
  | EvRPC coffee_id s => match rpc_update coffee_id s with RpcTrue => false | _ => true end
  | _ => false
  end.

Definition rpc_calls (tr : list event) : nat := List.length (filter is_rpc tr).
Definition generation_calls (tr : list event) : list event := filter is_generation tr.
Definition rpc_failures (rpc_update : Z -> string -> rpc_result) (tr : list event) : nat :=
  List.length (filter (is_failed_rpc rpc_update) tr).

(** How a live run and a dry run of the same work set relate. *)
Definition dry_live_inv (rpc_update : Z -> string -> rpc_result) (live dry : run_state) : Prop :=
  (updated dry = updated live + rpc_failures rpc_update (trace live))%nat /\
  (failed dry + rpc_failures rpc_update (trace live) = failed live)%nat /\
  (rpc_calls (trace dry) = 0)%nat /\
  generation_calls (trace dry) = generation_calls (trace live).

Section ErrorKinds.
Context {F : Type} `{PyFloat F}.
Variable py_hash : string -> Z.
Variable openai_embed : string -> option (list F).
Variable rpc_update : Z -> string -> rpc_result.
Variable float_str : F -> string.

(** The spec's per-record errors: empty tags, a dimension mismatch or a
    transport failure of the primary generator, a failed persistence write. *)
Inductive per_record_error (has_openai dry_run : bool) (c : coffee) : Prop :=
| err_no_tags :
    tags_falsy (c_flavor_tags c) = true -> per_record_error has_openai dry_run c
| err_dimension (tags : list string) (v : list F) :
    c_flavor_tags c = Some tags -> tags <> [] -> has_openai = true ->
    openai_embed (join ", " tags) = Some v -> List.length v <> VECTOR_DIMENSIONS ->
    per_record_error has_openai dry_run c
| err_transport (tags : list string) :
    c_flavor_tags c = Some tags -> tags <> [] -> has_openai = true ->
    openai_embed (join ", " tags) = None -> per_record_error has_openai dry_run c
| err_write (tags : list string) (emb : list F) :
    c_flavor_tags c = Some tags -> tags <> [] -> dry_run = false ->
    (if has_openai then generate_openai_embedding openai_embed tags
     else generate_fallback_embedding py_hash tags) = Some emb -> emb <> [] ->
    rpc_update (c_id c) ("[" ++ join "," (map float_str emb) ++ "]")%string <> RpcTrue ->
    per_record_error has_openai dry_run c.

End ErrorKinds.

(* ------------------------------------------------------------------ *)
(** ** The batch loop of [main] with its waits and progress lines *)

Definition opt_eqb {A} (eqb : A -> A -> bool) (a b : option A) : bool :=
  match a, b with
  | Some x, Some y => eqb x y
  | None, None => true
  | _, _ => false
  end.

Fixpoint strings_eqb (a b : list string) : bool :=
  match a, b with
  | [], [] => true
  | x :: a', y :: b' => String.eqb x y && strings_eqb a' b'
  | _, _ => false
  end.

(** [coffee == other] on two rows: equal column by column. *)
Definition coffee_eqb (a b : coffee) : bool :=
  Z.eqb (c_id a) (c_id b) &&
  opt_eqb String.eqb (c_coffee_name a) (c_coffee_name b) &&
  opt_eqb strings_eqb (c_flavor_tags a) (c_flavor_tags b) &&
  opt_eqb String.eqb (c_updated_at a) (c_updated_at b) &&
  opt_eqb String.eqb (c_created_at a) (c_created_at b) &&
  opt_eqb String.eqb (c_flavor_embedding a) (c_flavor_embedding b).

(** What the loop reports and waits for: the batch header
    [Processing batch {batch_num}/{total_batches} ({len(batch)} coffees)], the
    progress lines [({i + len(batch)}/{total_coffees})] and
    [Updated: {updated}, Failed: {failed}], and the two [time.sleep] calls. *)
Inductive tick :=
| TBatch (batch_num total_batches batch_len : nat)
| TProgress (processed total_coffees updated failed : nat)
| TSleepRequest (seconds : float)
| TSleepBatch (seconds : float).

(** [time.sleep(secs)] for a float [secs > 0]: CPython converts [secs] to
    nanoseconds, [secs * 1e9] rounded up, and raises OverflowError unless the
    result is below 2^63, i.e. for [inf] and for about 9.2e9 seconds or more.
    Products that large are integers already, so rounding up moves none of
    them across 2^63. *)
Definition sleep_overflows (secs : float) : bool :=
  negb (PrimFloat.ltb (PrimFloat.mul secs 1e9%float) 9223372036854775808%float).

Section Timed.
Context {F : Type} `{PyFloat F}.
Variable py_hash : string -> Z.
Variable openai_embed : string -> option (list F).
Variable rpc_update : Z -> string -> rpc_result.
Variable float_str : F -> string.
(** [args.delay] and [args.batch_delay]. *)
Variables (delay batch_delay : float).

(** [for coffee in batch]: the update and its counter, then
    [if args.delay > 0 and coffee != batch[-1]: time.sleep(args.delay)],
    which raises when the delay overflows. *)
Fixpoint timed_coffees (has_openai dry_run : bool) (batch : list coffee)
  (st : run_state) (ticks : list tick) (cs : list coffee)
  : outcome (run_state * list tick) :=
  match cs with
  | [] => Ok (st, ticks)
  | coffee :: cs' =>
      match process_coffee py_hash openai_embed rpc_update float_str
              has_openai dry_run st coffee with
      | Raise e => Raise e
      | Ok st' =>
          if PrimFloat.ltb 0 delay && negb (coffee_eqb coffee (last batch coffee)) then
            if sleep_overflows delay then Raise OverflowError
            else timed_coffees has_openai dry_run batch st' (ticks ++ [TSleepRequest delay]) cs'
          else timed_coffees has_openai dry_run batch st' ticks cs'
      end
  end.

(** One round of [for i in range(0, total_coffees, batch_size)]; the wait
    between batches raises when [args.batch_delay] overflows. *)
Definition timed_round (has_openai dry_run : bool) (batch_size : nat)
  (coffees : list coffee) (acc : outcome (run_state * list tick)) (i : nat)
  : outcome (run_state * list tick) :=
  match acc with
  | Raise e => Raise e
  | Ok (st, ticks) =>
      let total_coffees := List.length coffees in
      let batch := firstn batch_size (skipn i coffees) in
      let batch_num := (i / batch_size + 1)%nat in
      let total_batches := ((total_coffees + batch_size - 1) / batch_size)%nat in
      match timed_coffees has_openai dry_run batch st
              (ticks ++ [TBatch batch_num total_batches (List.length batch)]) batch with
      | Raise e => Raise e
      | Ok (st', ticks') =>
          let ticks'' := ticks' ++ [TProgress (i + List.length batch) total_coffees
                                      (updated st') (failed st')] in
          if (i + batch_size <? total_coffees)%nat && PrimFloat.ltb 0 batch_delay then
            if sleep_overflows batch_delay then Raise OverflowError
            else Ok (st', ticks'' ++ [TSleepBatch batch_delay])
          else Ok (st', ticks'')
      end
  end.

Definition timed_loop (has_openai dry_run : bool) (batch_size : Z) (coffees : list coffee)
  (st : run_state) : outcome (run_state * list tick) :=
  if (batch_size =? 0)%Z then Raise ValueError
  else if (batch_size <? 0)%Z then Ok (st, [])
  else
    let bs := Z.to_nat batch_size in
    fold_left (timed_round has_openai dry_run bs coffees)
      (range_from (List.length coffees) 0 (List.length coffees) bs) (Ok (st, [])).

End Timed.

(** Reading the ticks of the loop and the trace of a run. *)
Definition batch_headers (ticks : list tick) : list (nat * nat * nat) :=
  flat_map (fun t => match t with TBatch a b c => [(a, b, c)] | _ => [] end) ticks.

Definition progress_lines (ticks : list tick) : list (nat * nat * nat * nat) :=
  flat_map (fun t => match t with TProgress a b c d => [(a, b, c, d)] | _ => [] end) ticks.

Definition is_request_sleep (t : tick) : bool :=
  match t with TSleepRequest _ => true | _ => false end.

Definition is_batch_sleep (t : tick) : bool :=
  match t with TSleepBatch _ => true | _ => false end.

Definition request_sleeps (ticks : list tick) : nat := List.length (filter is_request_sleep ticks).
Definition batch_sleeps (ticks : list tick) : nat := List.length (filter is_batch_sleep ticks).

(** The record ids the update RPC was called with, in call order. *)
Definition rpc_ids (tr : list event) : list Z :=
  flat_map (fun ev => match ev with EvRPC i _ => [i] | _ => [] end) tr.

(** RPC calls whose result was [True]. *)
Definition rpc_successes (rpc_update : Z -> string -> rpc_result) (tr : list event) : nat :=
  List.length (filter (fun ev => is_rpc ev && negb (is_failed_rpc rpc_update ev)) tr).

(** Rows whose [flavor_tags] is a non-empty list. *)
Definition count_tagged (cs : list coffee) : nat :=
  List.length (filter (fun c => negb (tags_falsy (c_flavor_tags c))) cs).

(** [l] is [l'] with some elements left out, the rest in order. *)
Inductive subseq {A : Type} : list A -> list A -> Prop :=
| subseq_nil : subseq [] []
| subseq_keep (x : A) (l l' : list A) : subseq l l' -> subseq (x :: l) (x :: l')
| subseq_skip (x : A) (l l' : list A) : subseq l l' -> subseq l (x :: l').

(** The factor [0.95 + (hash(str(k)) % 10) / 100] of position [k]. *)
Definition position_factor {F} `{PyFloat F} (py_hash : string -> Z) (k : nat) : F :=
  f_add (lit 95 100)
    (f_div (f_of_Z (Z.modulo (py_hash (Py.str_of_nat k)) 10)) (f_of_Z 100)).

(** The same invocation with another answer at the fallback prompt. *)
Definition with_input (e : env) (s : string) : env :=
  mk_env (arg_supabase_url e) (arg_supabase_key e) (arg_openai_key e)
    (env_supabase_url e) (env_supabase_key e) (env_openai_key e)
    (create_client_ok e) (coffees_resp e) (logs_resp e) (force_all e)
    (batch_size e) (dry_run e) s.

(** Invocations for the concrete checks of the runner and of [main]. *)
Module Fixtures2.

(** No OpenAI key and no [--force-all]: the fallback prompt is asked. *)
Definition env_prompt (input : string) (bs : Z) : env :=
  mk_env (Some "https://db.example"%string) (Some "service-key"%string) None
    None None None true (Some Fixtures.thirteen) None false bs false input.

Definition tagged_mix : list coffee :=
  [Fixtures.old_embedded; Fixtures.untagged; Fixtures.new_embedded].

(** The fallback vector of the tags ["fruity"] under a constant hash. *)
Definition fruity_vec : list float :=
  match generate_fallback_embedding (Fixtures.hash_const 3) ["fruity"%string] with
  | Some v => v
  | None => []
  end.

(** The final state of the batch loop over the 13 records, live, in batches of 5. *)
Definition live_state : run_state :=
  match run_loop (Fixtures.hash_const 0) Fixtures.openai_down Fixtures.rpc_all_true
          Fixtures.float_repr false false 5 Fixtures.thirteen (mk_state 0 0 []) with
  | Ok st => st
  | Raise _ => mk_state 0 0 []
  end.

(** The same loop with [--delay 1] and [--batch-delay 3]: final state and log. *)
Definition timed_run : run_state * list tick :=
  match timed_loop (Fixtures.hash_const 0) Fixtures.openai_down Fixtures.rpc_all_true
          Fixtures.float_repr 1%float 3%float false false 5 Fixtures.thirteen
          (mk_state 0 0 []) with
  | Ok r => r
  | Raise _ => (mk_state 0 0 [], [])
  end.

End Fixtures2.

(* ------------------------------------------------------------------ *)
(** ** Binary64 orders of magnitude *)

(** [digits * 2^e]: the binary order of magnitude of [m * 2^e]. *)
Definition mag (m e : Z) : Z := (Z.log2 m + 1 + e)%Z.

(** A positive float, or +inf, whose order of magnitude is at least [t]. *)
Definition at_least (t : Z) (x : spec_float) : Prop :=
  match x with
  | S754_finite false m e => (t <= mag (Zpos m) e)%Z
  | S754_infinity false => True
  | _ => False
  end.

(** A float that is a zero, positive or +inf. *)
Definition nonneg_sf (y : spec_float) : bool :=
  match y with
  | S754_zero _ | S754_finite false _ _ | S754_infinity false => true
  | _ => false
  end.

(* ------------------------------------------------------------------ *)
(** ** Unit checks of the model *)

Example lower_check : Py.lower "Dark CHOCOLATE" = "dark chocolate"%string.
Proof. reflexivity. Qed.

Example contains_check :
  Py.contains "fruity" "very fruity" = true /\ Py.contains "nutty" "nut" = false.
Proof. split; reflexivity. Qed.

Example get_coffee_data_check :
  get_coffee_data
    (Some [Fixtures.old_embedded; Fixtures.new_embedded; Fixtures.old_unembedded])
    (Some [Some Fixtures.last_sync]) false
  = [Fixtures.new_embedded; Fixtures.old_unembedded].
Proof. reflexivity. Qed.

Example batches_13_5 : map (@List.length _) (batches Fixtures.thirteen 5) = [5; 5; 3]%nat.
Proof. reflexivity. Qed.

Example fallback_length_check :
  option_map (@List.length _)
    (generate_fallback_embedding (F := float) (Fixtures.hash_const 3) ["Fruity notes"; "xyz"]%string)
  = Some 1536%nat.
Proof. vm_compute. reflexivity. Qed.

(* ------------------------------------------------------------------ *)
(** ** Change detector *)

Section Detector.

Lemma filter_need_update_some (t : string) (cs : list coffee) :
  filter_need_update (Some t) cs = Some (filter (keep_since t) cs).
Proof.
  induction cs as [|c cs IH]; simpl; [reflexivity|].
  rewrite IH. unfold keep_since, updated_since.
  destruct (Py.truthy_str (c_flavor_embedding c));
    destruct (coffee_updated c) as [u|]; simpl; try reflexivity;
    destruct (String.eqb u EmptyString), (Py.str_gt u t); reflexivity.
Qed.

Lemma str_gt_empty (t : string) : Py.str_gt EmptyString t = false.
Proof. unfold Py.str_gt. destruct t; reflexivity. Qed.

Lemma truthy_str_false (o : option string) :
  Py.truthy_str o = false <-> o = None \/ o = Some ""%string.
Proof.
  destruct o as [s|]; simpl; [|tauto].
  destruct (String.eqb_spec s EmptyString); subst; simpl; split; intro Hs;
    try tauto; try discriminate.
  destruct Hs as [Hs|Hs]; inversion Hs; contradiction.
Qed.

Lemma keep_since_spec (t : string) (c : coffee) :
  c_updated_at c <> Some ""%string ->
  keep_since t c = true <-> later_than (effective_ts c) t \/ embedding_absent c.
Proof.
  intro Hu. unfold keep_since, effective_ts, coffee_updated, embedding_absent.
  rewrite orb_true_iff, negb_true_iff, truthy_str_false.
  apply or_iff_compat_r.
  destruct (c_updated_at c) as [u|] eqn:Eu.
  - assert (Hne : u <> EmptyString) by (intro; subst; contradiction).
    apply String.eqb_neq in Hne. simpl. rewrite Hne. simpl. rewrite Hne. reflexivity.
  - simpl. destruct (c_created_at c) as [s|]; simpl; [|split; [discriminate|tauto]].
    destruct (String.eqb_spec s EmptyString); subst; simpl;
      [rewrite str_gt_empty; split; discriminate | reflexivity].
Qed.

End Detector.

(** C1: when [force_all] is unset and [update_logs] yields a last sync time
    [t], a record is in the work set of [get_coffee_data] exactly when its
    [updated_at] (or [created_at] when [updated_at] is absent) is strictly
    later than [t] in the order the code compares these strings, or its
    [flavor_embedding] is absent or empty.  Present timestamps are non-empty
    strings, as the database renders them. *)
Theorem get_coffee_data_stale_iff (coffees : list coffee) (t : string)
  (older : list (option string)) (c : coffee) :
  Forall (fun c => c_updated_at c <> Some ""%string) coffees ->
  In c (get_coffee_data (Some coffees) (Some (Some t :: older)) false) <->
  In c coffees /\ (later_than (effective_ts c) t \/ embedding_absent c).
Proof.
  intro Hwf.
  assert (Hsel : get_coffee_data (Some coffees) (Some (Some t :: older)) false
                 = filter (keep_since t) coffees).
  { destruct coffees as [|c0 cs]; [reflexivity|].
    unfold get_coffee_data. rewrite filter_need_update_some. reflexivity. }
  rewrite Hsel, filter_In.
  split; intros [Hin Hk]; split; try exact Hin;
    rewrite Forall_forall in Hwf; apply (keep_since_spec t c (Hwf c Hin)); exact Hk.
Qed.

Lemma get_coffee_data_stale_iff_witness :
  Forall (fun c => c_updated_at c <> Some ""%string)
    [Fixtures.old_embedded; Fixtures.new_embedded; Fixtures.old_unembedded] /\
  (~ In Fixtures.old_embedded
       (get_coffee_data
          (Some [Fixtures.old_embedded; Fixtures.new_embedded; Fixtures.old_unembedded])
          (Some [Some Fixtures.last_sync]) false)).
Proof.
  assert (Hwf : Forall (fun c => c_updated_at c <> Some ""%string)
    [Fixtures.old_embedded; Fixtures.new_embedded; Fixtures.old_unembedded]).
  { repeat constructor; discriminate. }
  split; [exact Hwf|].
  intro Hin.
  apply (get_coffee_data_stale_iff _ Fixtures.last_sync [] _ Hwf) in Hin.
  destruct Hin as [_ [Hl | [He | He]]]; [vm_compute in Hl | vm_compute in He | vm_compute in He]; discriminate.
Defined.

Lemma filter_need_update_set_tags (g : coffee -> option (list string))
  (last_update_time : option string) (cs : list coffee) :
  filter_need_update last_update_time (map (set_tags g) cs)
  = option_map (map (set_tags g)) (filter_need_update last_update_time cs).
Proof.
  induction cs as [|c cs IH]; [reflexivity|].
  simpl. rewrite IH.
  replace (coffee_updated (set_tags g c)) with (coffee_updated c) by reflexivity.
  destruct (updated_since (coffee_updated c) last_update_time) as [b|];
    destruct (filter_need_update last_update_time cs); simpl; try reflexivity.
  destruct (b || negb (Py.truthy_str (c_flavor_embedding c))); reflexivity.
Qed.

(** C2 (counterexample): with [force_all] set, a record whose [flavor_tags]
    is empty is in the work set returned by [get_coffee_data]. *)
Lemma get_coffee_data_keeps_untagged :
  c_flavor_tags Fixtures.untagged = Some [] /\
  In Fixtures.untagged (get_coffee_data (Some [Fixtures.untagged]) (Some []) true).
Proof. split; [reflexivity | left; reflexivity]. Qed.

(** C2 (amended): [get_coffee_data] never reads [flavor_tags] (re-tagging the
    rows commutes with it, for every configuration), so rows with empty tags
    are selected by the same rules as any other row; [update_coffee_embedding]
    then reports such a row (the warning) and returns failure, calling no
    generator. *)
Theorem get_coffee_data_ignores_tags
  (g : coffee -> option (list string)) (coffees_resp : option (list coffee))
  (logs_resp : option (list (option string))) (force_all : bool) :
  get_coffee_data (option_map (map (set_tags g)) coffees_resp) logs_resp force_all
  = map (set_tags g) (get_coffee_data coffees_resp logs_resp force_all) /\
  (forall (F : Type) (HF : PyFloat F) py_hash openai_embed rpc_update float_str
          has_openai dry_run c tr,
     tags_falsy (c_flavor_tags c) = true ->
     @update_coffee_embedding F HF py_hash openai_embed rpc_update float_str
       has_openai dry_run c tr = Ok (false, tr ++ [EvWarnNoTags (c_id c)])).
Proof.
  split.
  - destruct coffees_resp as [[|c cs]|]; [reflexivity| |reflexivity].
    cbn -[filter_need_update map]. destruct force_all; [reflexivity|].
    destruct logs_resp as [[|t ts]|]; try reflexivity.
    rewrite filter_need_update_set_tags.
    destruct (filter_need_update t (c :: cs)); reflexivity.
  - intros F HF py_hash openai_embed rpc_update float_str has_openai dry_run c tr Ht.
    unfold update_coffee_embedding.
    destruct (c_flavor_tags c) as [[|x xs]|]; try reflexivity; discriminate.
Qed.

(* ------------------------------------------------------------------ *)
(** ** Fallback generator: shape of the result *)

Section FallbackShape.
Context {F : Type} `{PyFloat F}.

Lemma omap_length {A B} (f : A -> option B) (l : list A) (l' : list B) :
  omap f l = Some l' -> List.length l' = List.length l.
Proof.
  revert l'; induction l as [|x l IH]; simpl; intros l' Hl.
  - inversion Hl; reflexivity.
  - destruct (f x); [|discriminate].
    destruct (omap f l) as [ys|] eqn:E; [|discriminate].
    inversion Hl; subst; simpl; f_equal; apply IH; reflexivity.
Qed.

Lemma find_flavor_in (s : string) (m : list (string * list F)) (v : list F) :
  find_flavor s m = Some v -> exists k, In (k, v) m.
Proof.
  induction m as [|[k w] m IH]; simpl; [discriminate|].
  destruct (Py.contains k s).
  - intro Hv; inversion Hv; subst; exists k; left; reflexivity.
  - intro Hv; destruct (IH Hv) as [k' Hk']; exists k'; right; exact Hk'.
Qed.

Lemma flavor_map_length (k : string) (v : list F) :
  In (k, v) flavor_map -> List.length v = 5%nat.
Proof.
  unfold flavor_map; simpl.
  intros Hin; repeat destruct Hin as [Hin|Hin]; try (inversion Hin; reflexivity);
    contradiction.
Qed.

Lemma fallback_step_length (base_vector : list F) (tag : string) :
  List.length base_vector = 5%nat -> List.length (fallback_step base_vector tag) = 5%nat.
Proof.
  intro Hb. unfold fallback_step.
  destruct (find_flavor (Py.lower tag) flavor_map) as [v|] eqn:Ev.
  - destruct (find_flavor_in _ _ _ Ev) as [k Hk].
    rewrite length_map, length_combine, Hb, (flavor_map_length k v Hk). reflexivity.
  - rewrite length_map; exact Hb.
Qed.

Lemma base_of_tags_length (flavor_tags : list string) :
  List.length (base_of_tags flavor_tags) = 5%nat.
Proof.
  unfold base_of_tags.
  assert (Hgen : forall b, List.length b = 5%nat ->
            List.length (fold_left fallback_step flavor_tags b) = 5%nat).
  { induction flavor_tags as [|t ts IH]; simpl; intros b Hb; [exact Hb|].
    apply IH, fallback_step_length, Hb. }
  apply Hgen; reflexivity.
Qed.

Variable py_hash : string -> Z.

Lemma extend_inner_length (normalized full : list F) :
  (List.length full < VECTOR_DIMENSIONS)%nat ->
  (List.length full <= List.length (extend_inner py_hash normalized full)
     <= VECTOR_DIMENSIONS)%nat /\
  (normalized <> [] ->
     List.length full < List.length (extend_inner py_hash normalized full))%nat.
Proof.
  revert full; induction normalized as [|v rest IH]; intros full Hf; cbn [extend_inner].
  - split; [lia | intro Hn; contradiction].
  - rewrite length_app; cbn [List.length].
    destruct (VECTOR_DIMENSIONS <=? List.length full + 1)%nat eqn:Ed.
    + rewrite length_app; cbn [List.length]; split; [lia | intros _; lia].
    + apply Nat.leb_gt in Ed.
      assert (Hf' : (List.length (full ++ [variation py_hash full v]) < VECTOR_DIMENSIONS)%nat)
        by (rewrite length_app; cbn [List.length]; lia).
      destruct (IH _ Hf') as [[Hlo Hhi] _].
      rewrite length_app in Hlo; cbn [List.length] in Hlo.
      split; [lia | intros _; lia].
Qed.

Lemma extend_outer_length (fuel : nat) (normalized full : list F) :
  normalized <> [] -> (List.length full <= VECTOR_DIMENSIONS)%nat ->
  (VECTOR_DIMENSIONS - List.length full <= fuel)%nat ->
  exists r, extend_outer py_hash fuel normalized full = Some r /\
            List.length r = VECTOR_DIMENSIONS.
Proof.
  revert full; induction fuel as [|f IH]; intros full Hn Hle Hfuel.
  - exists full. cbn [extend_outer].
    replace (List.length full <? VECTOR_DIMENSIONS)%nat with false
      by (symmetry; apply Nat.ltb_ge; lia).
    split; [reflexivity | lia].
  - cbn [extend_outer]. destruct (List.length full <? VECTOR_DIMENSIONS)%nat eqn:Elt.
    + apply Nat.ltb_lt in Elt.
      destruct (extend_inner_length normalized full Elt) as [[Hlo Hhi] Hstrict].
      specialize (Hstrict Hn).
      apply IH; [exact Hn | exact Hhi | lia].
    + apply Nat.ltb_ge in Elt. exists full; split; [reflexivity | lia].
Qed.

Lemma generate_fallback_embedding_length (flavor_tags : list string) (v : list F) :
  generate_fallback_embedding py_hash flavor_tags = Some v ->
  List.length v = VECTOR_DIMENSIONS.
Proof.
  unfold generate_fallback_embedding.
  destruct (normalize (base_of_tags flavor_tags)) as [normalized|] eqn:En; [|discriminate].
  assert (Hn : normalized <> []).
  { apply omap_length in En. rewrite base_of_tags_length in En.
    intro Hnil; subst; discriminate. }
  destruct (extend_outer_length VECTOR_DIMENSIONS normalized [] Hn) as [r [Hr Hlen]];
    [cbn [List.length]; lia | cbn [List.length]; lia |].
  rewrite Hr. intro Hv.
  apply (f_equal (fun o => match o with Some l => List.length l | None => 0%nat end)) in Hv.
  cbn beta iota in Hv. rewrite <- Hv, length_firstn, Hlen. apply Nat.min_id.
Qed.

Lemma generate_fallback_embedding_some (flavor_tags : list string) :
  (exists normalized, normalize (base_of_tags flavor_tags) = Some normalized) ->
  exists v, generate_fallback_embedding py_hash flavor_tags = Some v.
Proof.
  intros [normalized En]. unfold generate_fallback_embedding. rewrite En.
  assert (Hn : normalized <> []).
  { apply omap_length in En. rewrite base_of_tags_length in En.
    intro Hnil; subst; discriminate. }
  destruct (extend_outer_length VECTOR_DIMENSIONS normalized [] Hn) as [r [Hr _]];
    [cbn [List.length]; lia | cbn [List.length]; lia |].
  rewrite Hr. eexists; reflexivity.
Qed.

End FallbackShape.

(* ------------------------------------------------------------------ *)
(** ** Fallback generator in exact arithmetic: the norm is positive *)

Section FallbackReal.
Local Open Scope R_scope.

Lemma flavor_map_nonneg (k : string) (v : list R) :
  In (k, v) flavor_map -> Forall (fun x => 0 <= x) v.
Proof.
  unfold flavor_map; cbn [In].
  intros Hin; repeat destruct Hin as [Hin|Hin];
    try (injection Hin as _ <-; repeat constructor; cbn; lra);
    contradiction.
Qed.

Lemma fallback_step_ge (base_vector : list R) (tag : string) :
  Forall (fun x => 1/10 <= x) base_vector ->
  Forall (fun x => 1/10 <= x) (fallback_step base_vector tag).
Proof.
  intro Hb. rewrite Forall_forall in Hb |- *. unfold fallback_step.
  destruct (find_flavor (Py.lower tag) flavor_map) as [v|] eqn:Ev.
  - destruct (find_flavor_in _ _ _ Ev) as [k Hk].
    pose proof (flavor_map_nonneg k v Hk) as Hv. rewrite Forall_forall in Hv.
    intros x Hx. apply in_map_iff in Hx. destruct Hx as [[a c] [<- Hac]].
    pose proof (Hb a (in_combine_l _ _ _ _ Hac)).
    pose proof (Hv c (in_combine_r _ _ _ _ Hac)).
    cbn. lra.
  - intros x Hx. apply in_map_iff in Hx. destruct Hx as [a [<- Ha]].
    pose proof (Hb a Ha). cbn. lra.
Qed.

Lemma base_of_tags_ge (flavor_tags : list string) :
  Forall (fun x => 1/10 <= x) (base_of_tags flavor_tags).
Proof.
  unfold base_of_tags.
  assert (Hgen : forall b, Forall (fun x => 1/10 <= x) b ->
            Forall (fun x => 1/10 <= x) (fold_left fallback_step flavor_tags b)).
  { induction flavor_tags as [|t ts IH]; cbn [fold_left]; intros b Hb; [exact Hb|].
    apply IH, fallback_step_ge, Hb. }
  apply Hgen. repeat constructor; cbn; lra.
Qed.

Lemma sum_squares_ge (l : list R) (a : R) :
  Forall (fun x => 1/10 <= x) l ->
  a <= fold_left (fun acc val => f_add acc (f_mul val val)) l a.
Proof.
  revert a; induction l as [|x l IH]; intros a Hl; cbn [fold_left]; [lra|].
  inversion Hl as [|? ? Hx Hl']; subst.
  specialize (IH (f_add a (f_mul x x)) Hl'). cbn in IH |- *. nra.
Qed.

Lemma magnitude_base_pos (flavor_tags : list string) :
  0 < magnitude (base_of_tags flavor_tags).
Proof.
  pose proof (base_of_tags_ge flavor_tags) as Hge.
  pose proof (base_of_tags_length (F := R) flavor_tags) as Hlen.
  unfold magnitude.
  destruct (base_of_tags flavor_tags) as [|x l]; [discriminate|].
  inversion Hge as [|? ? Hx Hl]; subst.
  cbn [fold_left]. apply sqrt_lt_R0.
  pose proof (sum_squares_ge l (f_add (f_of_Z 0) (f_mul x x)) Hl) as Hs.
  cbn in Hs |- *. nra.
Qed.

Lemma omap_total {A B} (f : A -> option B) (l : list A) :
  (forall x, In x l -> exists y, f x = Some y) -> exists l', omap f l = Some l'.
Proof.
  induction l as [|x l IH]; intro Hf; [exists []; reflexivity|].
  destruct (Hf x (or_introl eq_refl)) as [y Hy].
  destruct IH as [l' Hl']; [intros z Hz; apply Hf; right; exact Hz|].
  exists (y :: l'); cbn. rewrite Hy, Hl'. reflexivity.
Qed.

Lemma normalize_base_some (flavor_tags : list string) :
  exists normalized, normalize (base_of_tags flavor_tags) = Some normalized.
Proof.
  unfold normalize. apply omap_total. intros x _.
  exists (f_div x (magnitude (base_of_tags flavor_tags))).
  unfold py_div. pose proof (magnitude_base_pos flavor_tags) as Hm.
  replace (f_is_zero (magnitude (base_of_tags flavor_tags))) with false; [reflexivity|].
  cbn [f_is_zero PyFloat_R]. unfold R_is_zero.
  destruct (Req_EM_T _ 0); [lra | reflexivity].
Qed.

End FallbackReal.

(* ------------------------------------------------------------------ *)
(** ** Fallback generator: dependence on the string hash *)

Section FallbackHash.
Context {F : Type} `{PyFloat F}.
Variables py_hash1 py_hash2 : string -> Z.
Hypothesis same_digits : forall i, (i < VECTOR_DIMENSIONS)%nat ->
  Z.modulo (py_hash1 (Py.str_of_nat i)) 10 = Z.modulo (py_hash2 (Py.str_of_nat i)) 10.

Lemma extend_inner_hash_ext (normalized full : list F) :
  (List.length full < VECTOR_DIMENSIONS)%nat ->
  extend_inner py_hash1 normalized full = extend_inner py_hash2 normalized full.
Proof.
  revert full; induction normalized as [|v rest IH]; intros full Hf;
    cbn [extend_inner]; [reflexivity|].
  assert (Hv : variation py_hash1 full v = variation py_hash2 full v).
  { unfold variation. rewrite (same_digits _ Hf). reflexivity. }
  rewrite Hv.
  destruct (VECTOR_DIMENSIONS <=? List.length (full ++ [variation py_hash2 full v]))%nat
    eqn:Ed; [reflexivity|].
  apply IH. apply Nat.leb_gt in Ed. exact Ed.
Qed.

Lemma extend_outer_hash_ext (fuel : nat) (normalized full : list F) :
  extend_outer py_hash1 fuel normalized full = extend_outer py_hash2 fuel normalized full.
Proof.
  revert full; induction fuel as [|f IH]; intro full; cbn [extend_outer];
    destruct (List.length full <? VECTOR_DIMENSIONS)%nat eqn:Elt; try reflexivity.
  apply Nat.ltb_lt in Elt. rewrite (extend_inner_hash_ext normalized full Elt). apply IH.
Qed.

End FallbackHash.

(** C3: whenever [generate_fallback_embedding] returns, its vector has exactly
    1536 elements (for any float model and hash seed); in exact arithmetic it
    returns for every tag list, whether the tags match dictionary keywords or
    not. *)
Theorem generate_fallback_embedding_1536 :
  (forall (F : Type) (HF : PyFloat F) (py_hash : string -> Z)
          (flavor_tags : list string) (v : list F),
     generate_fallback_embedding py_hash flavor_tags = Some v ->
     List.length v = 1536%nat) /\
  (forall (py_hash : string -> Z) (flavor_tags : list string),
     exists v : list R, generate_fallback_embedding py_hash flavor_tags = Some v /\
                        List.length v = 1536%nat).
Proof.
  split.
  - intros F HF py_hash flavor_tags v Hv.
    exact (generate_fallback_embedding_length py_hash flavor_tags v Hv).
  - intros py_hash flavor_tags.
    destruct (generate_fallback_embedding_some (F := R) py_hash flavor_tags
                (normalize_base_some flavor_tags)) as [v Hv].
    exists v; split; [exact Hv|].
    exact (generate_fallback_embedding_length py_hash flavor_tags v Hv).
Qed.

(* ------------------------------------------------------------------ *)
(** ** Fallback generator in binary64: the norm is positive

    Rounding a positive sum or product never lowers its binary order of
    magnitude, so each component of the base vector stays at least 2^-4
    (it starts at 0.1 and only receives non-negative additions), the sum of
    squares stays at least 2^-8 and its square root is a positive float. *)

Lemma digits2_pos_log2 (p : positive) :
  Zpos (digits2_pos p) = (Z.log2 (Zpos p) + 1)%Z.
Proof.
  assert (Hs : forall q, digits2_pos q = Pos.size q)
    by (induction q; cbn; congruence).
  rewrite Hs. destruct p; cbn [Z.log2 Pos.size]; lia.
Qed.

Lemma shr_1_m (r : shr_record) : (0 <= shr_m r)%Z -> shr_m (shr_1 r) = Z.div2 (shr_m r).
Proof. destruct r as [[|[p|p|]|p] [] []]; cbn; intro Hr; reflexivity || lia. Qed.

Lemma iter_shr_1 (p : positive) (r : shr_record) :
  (0 <= shr_m r)%Z ->
  shr_m (SpecFloat.iter_pos shr_1 p r) = (shr_m r / 2 ^ Zpos p)%Z.
Proof.
  revert r; induction p as [p IH|p IH|]; intros r Hr; cbn [SpecFloat.iter_pos];
    try assert (Hp : (0 < 2 ^ Zpos p)%Z) by (apply Z.pow_pos_nonneg; lia).
  - assert (H1 : (0 <= shr_m (shr_1 r))%Z)
      by (rewrite shr_1_m, Z.div2_div by exact Hr; apply Z.div_pos; lia).
    assert (H2 : (0 <= shr_m (SpecFloat.iter_pos shr_1 p (shr_1 r)))%Z)
      by (rewrite IH by exact H1; apply Z.div_pos; [exact H1 | apply Z.pow_pos_nonneg; lia]).
    rewrite IH, IH, shr_1_m, Z.div2_div by assumption.
    rewrite !Z.div_div by lia.
    f_equal. replace (Zpos p~1) with (1 + Zpos p + Zpos p)%Z by lia.
    rewrite !Z.pow_add_r by lia. ring.
  - assert (H2 : (0 <= shr_m (SpecFloat.iter_pos shr_1 p r))%Z)
      by (rewrite IH by exact Hr; apply Z.div_pos; [exact Hr | apply Z.pow_pos_nonneg; lia]).
    rewrite IH, IH by assumption.
    rewrite Z.div_div by lia.
    f_equal. replace (Zpos p~0) with (Zpos p + Zpos p)%Z by lia.
    rewrite Z.pow_add_r by lia. reflexivity.
  - rewrite shr_1_m, Z.div2_div by exact Hr. reflexivity.
Qed.

Lemma shr_record_of_loc_m (m : Z) (l : location) : shr_m (shr_record_of_loc m l) = m.
Proof. destruct l as [|[]]; reflexivity. Qed.

Lemma shr_fexp_mag (m e : Z) (l : location) :
  (0 < m)%Z -> (SpecFloat.emin prec emax < mag m e)%Z ->
  (0 < shr_m (fst (shr_fexp prec emax m e l)))%Z /\
  mag (shr_m (fst (shr_fexp prec emax m e l))) (snd (shr_fexp prec emax m e l)) = mag m e.
Proof.
  intros Hm He. unfold shr_fexp, shr.
  assert (Hd : Zdigits2 m = (Z.log2 m + 1)%Z)
    by (destruct m as [|p|p]; try lia; apply digits2_pos_log2).
  rewrite Hd.
  destruct (fexp prec emax (Z.log2 m + 1 + e) - e)%Z as [|q|q] eqn:Eq;
    cbn [fst snd]; rewrite ?shr_record_of_loc_m; try (split; [exact Hm | reflexivity]).
  unfold fexp, SpecFloat.emin, prec, emax in *. unfold mag in *.
  assert (Hq : (Zpos q <= Z.log2 m)%Z) by lia.
  pose proof (Z.log2_spec m Hm) as [Hlo _].
  assert (Hpow : (2 ^ Zpos q <= m)%Z)
    by (eapply Z.le_trans; [apply Z.pow_le_mono_r; [lia | exact Hq] | exact Hlo]).
  rewrite iter_shr_1 by (rewrite shr_record_of_loc_m; lia).
  rewrite shr_record_of_loc_m. split.
  - apply Z.div_str_pos. split; [apply Z.pow_pos_nonneg; lia | exact Hpow].
  - rewrite <- Z.shiftr_div_pow2 by lia. rewrite Z.log2_shiftr by lia. lia.
Qed.

Lemma round_nearest_even_bounds (m : Z) (l : location) :
  (m <= round_nearest_even m l <= m + 1)%Z.
Proof. destruct l as [|[]]; cbn; try destruct (Z.even m); lia. Qed.

(** Rounding a positive exact value never lowers its binary order of magnitude,
    and never flushes it to zero above the subnormal range. *)
Lemma round_aux_mag (m e : Z) (l : location) :
  (0 < m)%Z -> (SpecFloat.emin prec emax < mag m e)%Z ->
  match binary_round_aux prec emax false m e l with
  | S754_finite false m' e' => (mag m e <= mag (Zpos m') e')%Z
  | S754_infinity false => True
  | _ => False
  end.
Proof.
  intros Hm He. unfold binary_round_aux.
  pose proof (shr_fexp_mag m e l Hm He) as [H1 H2].
  destruct (shr_fexp prec emax m e l) as [r1 e1]. cbn [fst snd] in H1, H2.
  set (rn := round_nearest_even (shr_m r1) (loc_of_shr_record r1)).
  pose proof (round_nearest_even_bounds (shr_m r1) (loc_of_shr_record r1)) as Hrn.
  fold rn in Hrn.
  assert (Hmag : (mag (shr_m r1) e1 <= mag rn e1)%Z)
    by (unfold mag; pose proof (Z.log2_le_mono (shr_m r1) rn ltac:(lia)); lia).
  pose proof (shr_fexp_mag rn e1 loc_Exact ltac:(lia) ltac:(lia)) as [H3 H4].
  destruct (shr_fexp prec emax rn e1 loc_Exact) as [r2 e2]. cbn [fst snd] in H3, H4.
  destruct (shr_m r2) as [|p|p] eqn:E2; try lia.
  destruct (e2 <=? emax - prec)%Z; [lia | exact I].
Qed.

Lemma iter_xO (m d : positive) : Zpos (Pos.iter xO m d) = (Zpos m * 2 ^ Zpos d)%Z.
Proof.
  induction d as [|d IH] using Pos.peano_ind; [cbn; lia|].
  rewrite Pos.iter_succ, Pos2Z.inj_succ, Z.pow_succ_r by lia.
  change (Zpos (Pos.iter xO m d)~0) with (2 * Zpos (Pos.iter xO m d))%Z.
  rewrite IH. ring.
Qed.

Lemma shl_align_mag (m : positive) (e e' : Z) :
  mag (Zpos (fst (shl_align m e e'))) (snd (shl_align m e e')) = mag (Zpos m) e /\
  snd (shl_align m e e') = Z.min e e'.
Proof.
  unfold shl_align. destruct (e' - e)%Z as [|d|d] eqn:Ed; cbn [fst snd]; try (split; [reflexivity | lia]).
  rewrite iter_xO. split; [|lia]. unfold mag.
  rewrite Z.log2_mul_pow2 by lia. lia.
Qed.

Lemma binary_round_mag (m : positive) (e : Z) :
  (SpecFloat.emin prec emax < mag (Zpos m) e)%Z ->
  match binary_round prec emax false m e with
  | S754_finite false m' e' => (mag (Zpos m) e <= mag (Zpos m') e')%Z
  | S754_infinity false => True
  | _ => False
  end.
Proof.
  intro He. unfold binary_round.
  pose proof (shl_align_mag m e (fexp prec emax (Zpos (digits2_pos m) + e))) as [Hs _].
  destruct (shl_align m e _) as [mz ez]. cbn [fst snd] in Hs.
  pose proof (round_aux_mag (Zpos mz) ez loc_Exact ltac:(lia) ltac:(lia)) as Hr.
  destruct (binary_round_aux _ _ _ _ _ _) as [[]|[]| |[] m' e']; try exact Hr; lia.
Qed.

Lemma add_at_least (t : Z) (x y : spec_float) :
  (SpecFloat.emin prec emax < t)%Z -> at_least t x -> nonneg_sf y = true ->
  at_least t (SF64add x y).
Proof.
  intros Ht Hx Hy. unfold SF64add.
  destruct x as [sx|[]| |[] mx ex]; try contradiction;
    destruct y as [sy|[]| |[] my ey]; try discriminate; cbn [SFadd]; try exact Hx; try exact I.
  cbn [cond_Zopp]. unfold at_least in Hx.
  pose proof (shl_align_mag mx ex (Z.min ex ey)) as [Hx1 Hx2].
  pose proof (shl_align_mag my ey (Z.min ex ey)) as [_ Hy2].
  destruct (shl_align mx ex (Z.min ex ey)) as [px ex']. 
  destruct (shl_align my ey (Z.min ex ey)) as [py ey']. cbn [fst snd] in *.
  change (Zpos px + Zpos py)%Z with (Zpos (px + py)).
  unfold binary_normalize.
  assert (Hmag : (mag (Zpos px) (Z.min ex ey) <= mag (Zpos (px + py)) (Z.min ex ey))%Z).
  { unfold mag. pose proof (Z.log2_le_mono (Zpos px) (Zpos (px + py))). lia. }
  replace ex' with (Z.min ex ey) in Hx1 by lia.
  pose proof (binary_round_mag (px + py) (Z.min ex ey) ltac:(lia)) as Hr.
  destruct (binary_round _ _ _ _ _) as [[]|[]| |[] m' e']; try exact Hr; cbn; lia.
Qed.

Lemma mul_at_least (x : spec_float) :
  at_least (-3) x -> at_least (-7) (SF64mul x x).
Proof.
  intro Hx. unfold SF64mul.
  destruct x as [sx|[]| |[] mx ex]; try contradiction; cbn [SFmul xorb]; [exact I|].
  unfold at_least in Hx.
  assert (Hm : (2 * mag (Zpos mx) ex - 1 <= mag (Zpos (mx * mx)) (ex + ex))%Z).
  { unfold mag. pose proof (Z.log2_mul_below (Zpos mx) (Zpos mx) ltac:(lia) ltac:(lia)).
    rewrite Pos2Z.inj_mul. lia. }
  pose proof (round_aux_mag (Zpos (mx * mx)) (ex + ex) loc_Exact ltac:(lia)
                ltac:(unfold SpecFloat.emin, prec, emax; lia)) as Hr.
  destruct (binary_round_aux _ _ _ _ _ _) as [[]|[]| |[] m' e']; try exact Hr; cbn; lia.
Qed.

Lemma valid_exp (s : bool) (m : positive) (e : Z) :
  valid_binary (S754_finite s m e) = true -> (SpecFloat.emin prec emax <= e)%Z.
Proof.
  unfold valid_binary. cbn [SpecFloat.valid_binary]. unfold bounded, canonical_mantissa.
  intro H. apply andb_prop in H as [H _]. apply Z.eqb_eq in H.
  rewrite <- H. unfold fexp. lia.
Qed.

Lemma sqrt_pos (x : spec_float) :
  valid_binary x = true -> at_least (SpecFloat.emin prec emax) x ->
  at_least (SpecFloat.emin prec emax) (SF64sqrt x).
Proof.
  intros Hv Hx. unfold SF64sqrt.
  destruct x as [sx|[]| |[] mx ex]; try contradiction; cbn [SFsqrt]; [exact I|].
  pose proof (valid_exp false mx ex Hv) as Hex.
  unfold SFsqrt_core_binary.
  set (d := Zdigits2 (Zpos mx)).
  set (e' := Z.min (fexp prec emax (Z.div2 (d + ex + 1))) (Z.div2 ex)).
  assert (He'1 : (e' <= Z.div2 ex)%Z) by (unfold e'; lia).
  assert (He'2 : (SpecFloat.emin prec emax <= e')%Z).
  { unfold e', fexp. rewrite Z.div2_div. unfold SpecFloat.emin, prec, emax in *.
    pose proof (Z.div_le_mono (-1074) ex 2 ltac:(lia) Hex). cbn in *. lia. }
  assert (Hs : (0 <= ex - 2 * e')%Z)
    by (rewrite Z.div2_div in He'1; pose proof (Z.mul_div_le ex 2 ltac:(lia)); lia).
  set (m' := match (ex - 2 * e')%Z with
             | Zpos _ => Z.shiftl (Zpos mx) (ex - 2 * e')
             | Z0 => Zpos mx
             | Zneg _ => 0%Z end).
  assert (Hm' : (1 <= m')%Z).
  { unfold m'. destruct (ex - 2 * e')%Z eqn:E; try lia.
    rewrite Z.shiftl_mul_pow2 by lia. pose proof (Z.pow_pos_nonneg 2 (Zpos p)). nia. }
  fold m'. pose proof (Z.sqrtrem_sqrt m') as Hq.
  destruct (Z.sqrtrem m') as [q r]. cbn [fst] in Hq.
  assert (Hq1 : (1 <= q)%Z) by (rewrite Hq; apply (Z.sqrt_le_mono 1 m') in Hm'; exact Hm').
  assert (Hmag : (SpecFloat.emin prec emax < mag q e')%Z).
  { unfold mag. pose proof (Z.log2_nonneg q). lia. }
  pose proof (round_aux_mag q e' (if (r =? 0)%Z then loc_Exact
                                  else loc_Inexact (if (r <=? q)%Z then Lt else Gt))
                ltac:(lia) Hmag) as Hr.
  destruct (binary_round_aux _ _ _ _ _ _) as [[]|[]| |[] m2 e2]; try exact Hr; unfold at_least, SpecFloat.emin, prec, emax in *; lia.
Qed.

Lemma at_least_weaken (t t' : Z) (x : spec_float) :
  (t' <= t)%Z -> at_least t x -> at_least t' x.
Proof. intros Ht Hx. destruct x as [|[]| |[] m e]; cbn in *; try contradiction; lia || exact I. Qed.

Lemma flavor_steps_nonneg :
  forallb (fun '(_, vec) =>
             forallb (fun v => nonneg_sf (Prim2SF (f_mul (F := float) (lit 5 10) v))) vec)
    flavor_map = true /\
  nonneg_sf (Prim2SF (lit (F := float) 5 100)) = true.
Proof. split; vm_compute; reflexivity. Qed.

Lemma fallback_step_at_least (b : list float) (tag : string) :
  Forall (fun x => at_least (-3) (Prim2SF x)) b ->
  Forall (fun x => at_least (-3) (Prim2SF x)) (fallback_step b tag).
Proof.
  intro Hb. rewrite Forall_forall in Hb |- *. unfold fallback_step.
  destruct flavor_steps_nonneg as [Hmap Hno].
  destruct (find_flavor (Py.lower tag) flavor_map) as [vec|] eqn:Ef.
  - intros x Hx. apply in_map_iff in Hx. destruct Hx as [[bv fv] [<- Hin]].
    cbn [f_add f_mul PyFloat_prim]. rewrite add_spec.
    apply add_at_least; [unfold SpecFloat.emin, prec, emax; lia | apply Hb; exact (in_combine_l _ _ _ _ Hin)|].
    destruct (find_flavor_in _ _ _ Ef) as [k Hk].
    rewrite forallb_forall in Hmap. specialize (Hmap _ Hk). cbn beta iota in Hmap.
    rewrite forallb_forall in Hmap.
    exact (Hmap fv (in_combine_r _ _ _ _ Hin)).
  - intros x Hx. apply in_map_iff in Hx. destruct Hx as [bv [<- Hin]].
    cbn [f_add PyFloat_prim]. rewrite add_spec.
    apply add_at_least; [unfold SpecFloat.emin, prec, emax; lia | apply Hb; exact Hin | exact Hno].
Qed.

Lemma base_of_tags_at_least (flavor_tags : list string) :
  Forall (fun x => at_least (-3) (Prim2SF x)) (base_of_tags (F := float) flavor_tags).
Proof.
  unfold base_of_tags.
  assert (H0 : Forall (fun x => at_least (-3) (Prim2SF x)) (repeat (lit (F := float) 1 10) 5)).
  { assert (H1 : at_least (-3) (Prim2SF (lit (F := float) 1 10)))
      by (vm_compute; discriminate).
    repeat constructor; exact H1. }
  revert H0. generalize (repeat (lit (F := float) 1 10) 5).
  induction flavor_tags as [|t ts IH]; intros b Hb; [exact Hb|].
  cbn [fold_left]. apply IH, fallback_step_at_least, Hb.
Qed.

Lemma sum_squares_at_least (l : list float) (acc : float) :
  Forall (fun x => at_least (-3) (Prim2SF x)) l ->
  at_least (-7) (Prim2SF acc) ->
  at_least (-7) (Prim2SF (fold_left (fun acc val => f_add acc (f_mul val val)) l acc)).
Proof.
  revert acc; induction l as [|x l IH]; intros acc Hl Hacc; [exact Hacc|].
  inversion Hl as [|? ? Hx Hl']; subst. cbn [fold_left]. apply IH; [exact Hl'|].
  cbn [f_add f_mul PyFloat_prim]. rewrite add_spec.
  apply add_at_least; [unfold SpecFloat.emin, prec, emax; lia | exact Hacc|].
  rewrite mul_spec. pose proof (mul_at_least _ Hx) as Hm.
  destruct (SF64mul _ _) as [|[]| |[] m e]; try contradiction; reflexivity.
Qed.

Lemma sum_squares_base_at_least (flavor_tags : list string) :
  at_least (-7) (Prim2SF (fold_left (fun acc val => f_add acc (f_mul val val))
                           (base_of_tags (F := float) flavor_tags) (f_of_Z 0))).
Proof.
  pose proof (base_of_tags_at_least flavor_tags) as Hb.
  pose proof (base_of_tags_length (F := float) flavor_tags) as Hlen.
  destruct (base_of_tags flavor_tags) as [|x l]; [discriminate|].
  inversion Hb as [|? ? Hx Hl]; subst. cbn [fold_left].
  apply sum_squares_at_least; [exact Hl|].
  cbn [f_add f_mul f_of_Z PyFloat_prim]. rewrite add_spec, mul_spec.
  pose proof (mul_at_least _ Hx) as Hm.
  change (Prim2SF (prim_of_Z 0)) with (S754_zero false).
  destruct (SF64mul _ _) as [|[]| |[] m e]; try contradiction; exact Hm.
Qed.

Lemma magnitude_base_pos_prim (flavor_tags : list string) :
  at_least (SpecFloat.emin prec emax) (Prim2SF (magnitude (F := float) (base_of_tags flavor_tags))).
Proof.
  unfold magnitude. cbn [f_sqrt PyFloat_prim]. rewrite sqrt_spec.
  apply sqrt_pos; [apply Prim2SF_valid|].
  apply (at_least_weaken (-7)); [unfold SpecFloat.emin, prec, emax; lia|].
  apply sum_squares_base_at_least.
Qed.

Lemma normalize_base_some_prim (flavor_tags : list string) :
  exists normalized, normalize (F := float) (base_of_tags flavor_tags) = Some normalized.
Proof.
  unfold normalize. apply omap_total. intros x _.
  exists (f_div x (magnitude (base_of_tags flavor_tags))).
  unfold py_div. pose proof (magnitude_base_pos_prim flavor_tags) as Hm.
  replace (f_is_zero (magnitude (base_of_tags flavor_tags))) with false; [reflexivity|].
  cbn [f_is_zero PyFloat_prim]. rewrite FloatAxioms.eqb_spec.
  change (Prim2SF (prim_of_Z 0)) with (S754_zero false).
  destruct (Prim2SF _) as [|[]| |[] m e]; try contradiction; reflexivity.
Qed.

(** C9: in binary64, as the script computes it, the vector normalized by
    [generate_fallback_embedding] starts from 0.1 per component and only
    receives non-negative additions, so for every tag list its sum of squares
    and its Euclidean norm are positive floats: the division never meets a
    zero norm and the call returns.  The script takes the root with [** 0.5]
    where [magnitude] uses the correctly rounded square root; the first
    conjunct, a radicand of at least 2^-8, does not depend on that choice. *)
Theorem generate_fallback_embedding_norm_pos (py_hash : string -> Z)
  (flavor_tags : list string) :
  PrimFloat.ltb (prim_of_Z 0)
    (fold_left (fun acc val => f_add acc (f_mul val val))
       (base_of_tags (F := float) flavor_tags) (f_of_Z 0)) = true /\
  PrimFloat.ltb (prim_of_Z 0) (magnitude (F := float) (base_of_tags flavor_tags)) = true /\
  exists v : list float, generate_fallback_embedding py_hash flavor_tags = Some v.
Proof.
  split; [|split].
  - rewrite ltb_spec. pose proof (sum_squares_base_at_least flavor_tags) as Hs.
    change (Prim2SF (prim_of_Z 0)) with (S754_zero false).
    destruct (Prim2SF _) as [|[]| |[] m e]; try contradiction; reflexivity.
  - rewrite ltb_spec. pose proof (magnitude_base_pos_prim flavor_tags) as Hs.
    change (Prim2SF (prim_of_Z 0)) with (S754_zero false).
    destruct (Prim2SF _) as [|[]| |[] m e]; try contradiction; reflexivity.
  - apply generate_fallback_embedding_some, normalize_base_some_prim.
Qed.

(** C8 (counterexample): with the same tags, two hash seeds (two runs of the
    script) give different vectors. *)
Lemma generate_fallback_embedding_seed_dependent :
  generate_fallback_embedding (F := float) (Fixtures.hash_const 0) ["fruity"%string]
  <> generate_fallback_embedding (F := float) Fixtures.hash_zero_one ["fruity"%string].
Proof.
  intro Heq.
  apply (f_equal (fun o => match o with
                           | Some (x :: _) => Prim2SF x
                           | _ => S754_zero false
                           end)) in Heq.
  vm_compute in Heq. discriminate.
Qed.

(** C8 (amended): [generate_fallback_embedding] does no I/O and uses no random
    source; its result is a function of the tag sequence and of the values
    [hash(str(i)) % 10] for the positions [i < 1536]: two hash functions that
    agree there give the same vector.  Python seeds [hash] on str per process. *)
Theorem generate_fallback_embedding_hash_ext (F : Type) (HF : PyFloat F)
  (py_hash1 py_hash2 : string -> Z) (flavor_tags : list string) :
  (forall i, (i < VECTOR_DIMENSIONS)%nat ->
     Z.modulo (py_hash1 (Py.str_of_nat i)) 10 = Z.modulo (py_hash2 (Py.str_of_nat i)) 10) ->
  generate_fallback_embedding py_hash1 flavor_tags
  = generate_fallback_embedding py_hash2 flavor_tags.
Proof.
  intro Hh. unfold generate_fallback_embedding.
  destruct (normalize (base_of_tags flavor_tags)) as [normalized|]; [|reflexivity].
  rewrite (extend_outer_hash_ext py_hash1 py_hash2 Hh). reflexivity.
Qed.

Lemma generate_fallback_embedding_hash_ext_witness :
  (forall i, (i < VECTOR_DIMENSIONS)%nat ->
     Z.modulo (Fixtures.hash_const 3 (Py.str_of_nat i)) 10
     = Z.modulo (Fixtures.hash_const 13 (Py.str_of_nat i)) 10) /\
  generate_fallback_embedding (F := float) (Fixtures.hash_const 3) ["fruity"%string]
  = generate_fallback_embedding (F := float) (Fixtures.hash_const 13) ["fruity"%string].
Proof.
  assert (Hh : forall i, (i < VECTOR_DIMENSIONS)%nat ->
     Z.modulo (Fixtures.hash_const 3 (Py.str_of_nat i)) 10
     = Z.modulo (Fixtures.hash_const 13 (Py.str_of_nat i)) 10)
    by (intros; reflexivity).
  split; [exact Hh|].
  apply (generate_fallback_embedding_hash_ext float PyFloat_prim _ _ _ Hh).
Defined.

(* ------------------------------------------------------------------ *)
(** ** Batches *)

Section Batches.
Context {A : Type}.
Variables (cs : list A) (bs : nat).
Hypothesis bs_pos : (0 < bs)%nat.

Lemma range_batches_concat (fuel i : nat) :
  (List.length cs <= i + fuel)%nat ->
  List.concat (map (fun j => firstn bs (skipn j cs)) (range_from fuel i (List.length cs) bs))
  = skipn i cs.
Proof.
  revert i; induction fuel as [|f IH]; intros i Hf; cbn [range_from].
  - symmetry; apply skipn_all2; lia.
  - destruct (i <? List.length cs)%nat eqn:Ei.
    + cbn [map List.concat]. rewrite IH by lia.
      rewrite Nat.add_comm, <- skipn_skipn. apply firstn_skipn.
    + apply Nat.ltb_ge in Ei. symmetry; apply skipn_all2; exact Ei.
Qed.

Lemma range_batches_shape (fuel i : nat) :
  (List.length cs <= i + fuel)%nat ->
  batched bs (map (fun j => firstn bs (skipn j cs)) (range_from fuel i (List.length cs) bs)).
Proof.
  revert i; induction fuel as [|f IH]; intros i Hf; cbn [range_from map];
    [constructor|].
  destruct (i <? List.length cs)%nat eqn:Ei; [|constructor].
  apply Nat.ltb_lt in Ei.
  assert (Hb : List.length (firstn bs (skipn i cs)) = Nat.min bs (List.length cs - i))
    by (rewrite length_firstn, length_skipn; reflexivity).
  specialize (IH (i + bs)%nat ltac:(lia)).
  destruct f as [|f']; cbn [range_from map] in IH |- *.
  - constructor. rewrite Hb. lia.
  - destruct (i + bs <? List.length cs)%nat eqn:Eb; cbn [map] in IH |- *.
    + apply Nat.ltb_lt in Eb. constructor; [rewrite Hb; lia | exact IH].
    + apply Nat.ltb_ge in Eb. constructor. rewrite Hb. lia.
Qed.

Lemma batches_concat : List.concat (batches cs bs) = cs.
Proof. unfold batches. rewrite range_batches_concat by lia. reflexivity. Qed.

Lemma batches_shape : batched bs (batches cs bs).
Proof. unfold batches. apply range_batches_shape. lia. Qed.

End Batches.

Lemma batches_lengths {A} (cs : list A) (bs : nat) :
  map (@List.length _) (batches cs bs)
  = map (fun i => Nat.min bs (List.length cs - i))
        (range_from (List.length cs) 0 (List.length cs) bs).
Proof.
  unfold batches. rewrite map_map. apply map_ext. intro i.
  rewrite length_firstn, length_skipn. reflexivity.
Qed.

(* ------------------------------------------------------------------ *)
(** ** Runner properties *)

Section RunnerProps.
Context {F : Type} `{PyFloat F}.
Variable py_hash : string -> Z.
Variable openai_embed : string -> option (list F).
Variable rpc_update : Z -> string -> rpc_result.
Variable float_str : F -> string.

Local Abbreviation update := (update_coffee_embedding py_hash openai_embed rpc_update float_str).
Local Abbreviation process := (process_coffee py_hash openai_embed rpc_update float_str).
Local Abbreviation process_all' := (process_all py_hash openai_embed rpc_update float_str).
Local Abbreviation loop := (run_loop py_hash openai_embed rpc_update float_str).

Lemma process_all_app (has_openai dry_run : bool) (st : run_state) (l1 l2 : list coffee) :
  process_all' has_openai dry_run st (l1 ++ l2)
  = match process_all' has_openai dry_run st l1 with
    | Ok st' => process_all' has_openai dry_run st' l2
    | Raise e => Raise e
    end.
Proof.
  revert st; induction l1 as [|c l1 IH]; intro st; [reflexivity|].
  cbn [app process_all]. destruct (process has_openai dry_run st c); [apply IH|reflexivity].
Qed.

Lemma process_batches_concat (has_openai dry_run : bool) (st : run_state)
  (bl : list (list coffee)) :
  process_batches py_hash openai_embed rpc_update float_str has_openai dry_run st bl
  = process_all' has_openai dry_run st (List.concat bl).
Proof.
  revert st; induction bl as [|b bl IH]; intro st; [reflexivity|].
  cbn [process_batches List.concat]. rewrite process_all_app.
  destruct (process_all' has_openai dry_run st b); [apply IH|reflexivity].
Qed.

Lemma run_loop_pos (has_openai dry_run : bool) (batch_size : Z) (coffees : list coffee)
  (st : run_state) :
  (0 < batch_size)%Z ->
  loop has_openai dry_run batch_size coffees st = process_all' has_openai dry_run st coffees.
Proof.
  intro Hb. unfold run_loop.
  replace (batch_size =? 0)%Z with false by (symmetry; apply Z.eqb_neq; lia).
  replace (batch_size <? 0)%Z with false by (symmetry; apply Z.ltb_ge; lia).
  rewrite process_batches_concat, batches_concat; [reflexivity | lia].
Qed.

Lemma process_coffee_one (has_openai dry_run : bool) (st st' : run_state) (c : coffee) :
  process has_openai dry_run st c = Ok st' ->
  (updated st' = S (updated st) /\ failed st' = failed st) \/
  (updated st' = updated st /\ failed st' = S (failed st)).
Proof.
  unfold process_coffee.
  destruct (update has_openai dry_run c (trace st)) as [[[|] tr]|]; intro Hs;
    inversion Hs; subst; cbn; [left | right]; split; reflexivity.
Qed.

Lemma process_all_total (has_openai dry_run : bool) (coffees : list coffee)
  (st st' : run_state) :
  process_all' has_openai dry_run st coffees = Ok st' ->
  (updated st' + failed st' = updated st + failed st + List.length coffees)%nat.
Proof.
  revert st; induction coffees as [|c cs IH]; intros st Hs; cbn [process_all] in Hs.
  - inversion Hs; subst; cbn; lia.
  - destruct (process has_openai dry_run st c) as [s1|] eqn:E1; [|discriminate].
    apply IH in Hs. apply process_coffee_one in E1. cbn [List.length]. lia.
Qed.

(** Dry and live runs of one record, from any two traces. *)
Lemma update_dry_live (has_openai : bool) (c : coffee) (trl0 trd0 : list event) :
  match update has_openai false c trl0, update has_openai true c trd0 with
  | Ok (bl, trl), Ok (bd, trd) =>
      exists nl nd, trl = trl0 ++ nl /\ trd = trd0 ++ nd /\
        rpc_calls nd = 0%nat /\ generation_calls nd = generation_calls nl /\
        (if bd then 1 else 0)%nat = ((if bl then 1 else 0) + rpc_failures rpc_update nl)%nat /\
        (if bl then 0 else 1)%nat = ((if bd then 0 else 1) + rpc_failures rpc_update nl)%nat
  | Raise e1, Raise e2 => e1 = e2
  | _, _ => False
  end.
Proof.
  unfold update_coffee_embedding.
  destruct (c_flavor_tags c) as [[|t ts]|];
    try (exists [EvWarnNoTags (c_id c)], [EvWarnNoTags (c_id c)];
         repeat split; reflexivity).
  destruct has_openai.
  - destruct (generate_openai_embedding openai_embed (t :: ts)) as [[|x xs]|];
      try (exists [EvOpenAI (join ", " (t :: ts))], [EvOpenAI (join ", " (t :: ts))];
           repeat split; reflexivity).
    destruct (rpc_update (c_id c) _) eqn:Er;
      eexists _, _; (split; [rewrite <- app_assoc; reflexivity|]);
      (split; [reflexivity|]);
      unfold rpc_failures, rpc_calls, generation_calls, is_failed_rpc;
      cbn [filter is_rpc is_generation List.length app]; rewrite ?Er;
      repeat split; reflexivity.
  - destruct (generate_fallback_embedding py_hash (t :: ts)) as [[|x xs]|];
      [ exists [EvFallback (t :: ts)], [EvFallback (t :: ts)]; repeat split; reflexivity
      | | reflexivity ].
    destruct (rpc_update (c_id c) _) eqn:Er;
      eexists _, _; (split; [rewrite <- app_assoc; reflexivity|]);
      (split; [reflexivity|]);
      unfold rpc_failures, rpc_calls, generation_calls, is_failed_rpc;
      cbn [filter is_rpc is_generation List.length app]; rewrite ?Er;
      repeat split; reflexivity.
Qed.

Lemma rpc_failures_app (l1 l2 : list event) :
  rpc_failures rpc_update (l1 ++ l2) = (rpc_failures rpc_update l1 + rpc_failures rpc_update l2)%nat.
Proof. unfold rpc_failures. rewrite filter_app, length_app. reflexivity. Qed.

Lemma rpc_calls_app (l1 l2 : list event) :
  rpc_calls (l1 ++ l2) = (rpc_calls l1 + rpc_calls l2)%nat.
Proof. unfold rpc_calls. rewrite filter_app, length_app. reflexivity. Qed.

Lemma generation_calls_app (l1 l2 : list event) :
  generation_calls (l1 ++ l2) = generation_calls l1 ++ generation_calls l2.
Proof. unfold generation_calls. apply filter_app. Qed.

Lemma process_dry_live (has_openai : bool) (sl sd : run_state) (c : coffee) :
  dry_live_inv rpc_update sl sd ->
  match process has_openai false sl c, process has_openai true sd c with
  | Ok sl', Ok sd' => dry_live_inv rpc_update sl' sd'
  | Raise e1, Raise e2 => e1 = e2
  | _, _ => False
  end.
Proof.
  intros (Iu & If & Ic & Ig). unfold process_coffee.
  pose proof (update_dry_live has_openai c (trace sl) (trace sd)) as Hu.
  destruct (update has_openai false c (trace sl)) as [[bl trl]|e1];
    destruct (update has_openai true c (trace sd)) as [[bd trd]|e2];
    try contradiction; [|exact Hu].
  destruct Hu as (nl & nd & -> & -> & Hc & Hg & Hup & Hfl).
  destruct bl, bd; cbn in Hup, Hfl |- *; unfold dry_live_inv; cbn [updated failed trace];
    rewrite rpc_failures_app, rpc_calls_app, !generation_calls_app, Hg, Ig, Hc;
    repeat split; lia.
Qed.

Lemma process_all_dry_live (has_openai : bool) (coffees : list coffee) (sl sd : run_state) :
  dry_live_inv rpc_update sl sd ->
  match process_all' has_openai false sl coffees, process_all' has_openai true sd coffees with
  | Ok sl', Ok sd' => dry_live_inv rpc_update sl' sd'
  | Raise e1, Raise e2 => e1 = e2
  | _, _ => False
  end.
Proof.
  revert sl sd; induction coffees as [|c cs IH]; intros sl sd Hinv; [exact Hinv|].
  cbn [process_all].
  pose proof (process_dry_live has_openai sl sd c Hinv) as Hs.
  destruct (process has_openai false sl c) as [sl1|e1];
    destruct (process has_openai true sd c) as [sd1|e2]; try contradiction.
  - apply IH, Hs.
  - exact Hs.
Qed.

(** C4 (amended): on the same work set and generators, a dry run makes no
    [update_coffee_flavor_vector] call and calls the generators exactly as the
    live run does; its [updated] count is the live run's plus the number of
    live writes that did not return [True] (so the two counts agree when every
    write succeeds), and its [failed] count is lower by that number. *)
Theorem dry_run_counts (has_openai : bool) (batch_size : Z) (coffees : list coffee) :
  match loop has_openai false batch_size coffees (mk_state 0 0 []),
        loop has_openai true batch_size coffees (mk_state 0 0 []) with
  | Ok live, Ok dry =>
      (updated dry = updated live + rpc_failures rpc_update (trace live))%nat /\
      (failed dry + rpc_failures rpc_update (trace live) = failed live)%nat /\
      (rpc_calls (trace dry) = 0)%nat /\
      generation_calls (trace dry) = generation_calls (trace live)
  | Raise e1, Raise e2 => e1 = e2
  | _, _ => False
  end.
Proof.
  assert (H0 : dry_live_inv rpc_update (mk_state 0 0 []) (mk_state 0 0 []))
    by (repeat split).
  destruct (Z.lt_trichotomy batch_size 0) as [Hneg | [Hz | Hpos]].
  - unfold run_loop.
    replace (batch_size =? 0)%Z with false by (symmetry; apply Z.eqb_neq; lia).
    replace (batch_size <? 0)%Z with true by (symmetry; apply Z.ltb_lt; lia).
    exact H0.
  - subst. reflexivity.
  - rewrite !run_loop_pos by exact Hpos.
    exact (process_all_dry_live has_openai coffees _ _ H0).
Qed.

Lemma update_raise (has_openai dry_run : bool) (c : coffee) (tr : list event) (e : exn) :
  update has_openai dry_run c tr = Raise e ->
  e = ZeroDivisionError /\ has_openai = false /\
  exists tags, c_flavor_tags c = Some tags /\ generate_fallback_embedding py_hash tags = None.
Proof.
  unfold update_coffee_embedding.
  destruct (c_flavor_tags c) as [[|t ts]|]; try discriminate.
  destruct has_openai.
  - destruct (generate_openai_embedding openai_embed (t :: ts)) as [[|x xs]|];
      try discriminate.
    destruct dry_run; [discriminate|]. destruct (rpc_update _ _); discriminate.
  - destruct (generate_fallback_embedding py_hash (t :: ts)) as [[|x xs]|] eqn:Eg.
    + discriminate.
    + destruct dry_run; [discriminate|]. destruct (rpc_update _ _); discriminate.
    + intro He; injection He as <-. repeat split. exists (t :: ts); split; [reflexivity | exact Eg].
Qed.

Lemma update_false_process (has_openai dry_run : bool) (st : run_state) (c : coffee)
  (tr : list event) :
  update has_openai dry_run c (trace st) = Ok (false, tr) ->
  process has_openai dry_run st c = Ok (mk_state (updated st) (S (failed st)) tr).
Proof. intro Hu. unfold process_coffee. rewrite Hu. reflexivity. Qed.

Lemma per_record_error_update (has_openai dry_run : bool) (c : coffee) (tr0 : list event) :
  per_record_error py_hash openai_embed rpc_update float_str has_openai dry_run c ->
  exists tr, update has_openai dry_run c tr0 = Ok (false, tr).
Proof.
  intros [Ht | tags v Ht Hne Ho Hv Hlen | tags Ht Hne Ho Hv | tags emb Ht Hne Hd Hg Hemb Hr];
    unfold update_coffee_embedding.
  - destruct (c_flavor_tags c) as [[|t ts]|]; try discriminate; eexists; reflexivity.
  - rewrite Ht. destruct tags as [|t ts]; [contradiction|]. subst has_openai.
    assert (Hn : generate_openai_embedding openai_embed (t :: ts) = None).
    { unfold generate_openai_embedding. rewrite Hv.
      apply Nat.eqb_neq in Hlen. rewrite Hlen. reflexivity. }
    rewrite Hn. eexists; reflexivity.
  - rewrite Ht. destruct tags as [|t ts]; [contradiction|]. subst has_openai.
    assert (Hn : generate_openai_embedding openai_embed (t :: ts) = None).
    { unfold generate_openai_embedding. rewrite Hv. reflexivity. }
    rewrite Hn. eexists; reflexivity.
  - rewrite Ht. destruct tags as [|t ts]; [contradiction|]. subst dry_run.
    destruct emb as [|x xs]; [contradiction|].
    destruct has_openai; rewrite Hg;
      (destruct (rpc_update _ _) eqn:Er; [contradiction | eexists; reflexivity
                                          | eexists; reflexivity]).
Qed.

(** C5: each per-record error (empty tags, a primary result of the wrong
    dimension, a primary transport failure, a write that fails) adds one to
    [failed] only and the run goes on with the next record; a record with empty
    tags is only reported (the warning) and reaches no generator; and the only
    exception that can stop the record loop is one raised inside the fallback
    generator itself, which is none of these errors. *)
Theorem per_record_errors_isolated :
  (forall has_openai dry_run st c,
     per_record_error py_hash openai_embed rpc_update float_str has_openai dry_run c ->
     exists tr, process has_openai dry_run st c
                = Ok (mk_state (updated st) (S (failed st)) tr)) /\
  (forall has_openai dry_run st c cs,
     per_record_error py_hash openai_embed rpc_update float_str has_openai dry_run c ->
     exists tr, process_all' has_openai dry_run st (c :: cs)
                = process_all' has_openai dry_run
                    (mk_state (updated st) (S (failed st)) tr) cs) /\
  (forall has_openai dry_run st c,
     tags_falsy (c_flavor_tags c) = true ->
     process has_openai dry_run st c
     = Ok (mk_state (updated st) (S (failed st)) (trace st ++ [EvWarnNoTags (c_id c)]))) /\
  (forall has_openai dry_run st coffees e,
     process_all' has_openai dry_run st coffees = Raise e ->
     e = ZeroDivisionError /\ has_openai = false /\
     exists c tags, In c coffees /\ c_flavor_tags c = Some tags /\
                    generate_fallback_embedding py_hash tags = None).
Proof.
  assert (Hone : forall has_openai dry_run st c,
     per_record_error py_hash openai_embed rpc_update float_str has_openai dry_run c ->
     exists tr, process has_openai dry_run st c
                = Ok (mk_state (updated st) (S (failed st)) tr)).
  { intros has_openai dry_run st c Herr.
    destruct (per_record_error_update has_openai dry_run c (trace st) Herr) as [tr Htr].
    exists tr. apply update_false_process, Htr. }
  split; [exact Hone|]. split.
  { intros has_openai dry_run st c cs Herr.
    destruct (Hone has_openai dry_run st c Herr) as [tr Htr].
    exists tr. cbn [process_all]. rewrite Htr. reflexivity. }
  split.
  { intros has_openai dry_run st c Ht. apply update_false_process.
    unfold update_coffee_embedding.
    destruct (c_flavor_tags c) as [[|t ts]|]; try discriminate; reflexivity. }
  intros has_openai dry_run st coffees e. revert st.
  induction coffees as [|c cs IH]; intros st Hr; cbn [process_all] in Hr; [discriminate|].
  destruct (process has_openai dry_run st c) as [st1|e1] eqn:E1.
  - destruct (IH st1 Hr) as (He & Hh & c' & tags & Hin & Ht & Hg).
    repeat split; try assumption. exists c', tags. split; [right; exact Hin | split; assumption].
  - injection Hr as <-. unfold process_coffee in E1.
    destruct (update has_openai dry_run c (trace st)) as [[[|] tr]|e2] eqn:Eu;
      try discriminate.
    injection E1 as <-.
    destruct (update_raise _ _ _ _ _ Eu) as (He & Hh & tags & Ht & Hg).
    repeat split; try assumption. exists c, tags. split; [left; reflexivity | split; assumption].
Qed.

(** C7: for [batch_size > 0], the loop cuts the work set into consecutive
    batches of [batch_size], only the last one shorter (never empty), whose
    concatenation is the work set; running the batches is running every record
    once, in order; 13 records with [batch_size = 5] give batches 5, 5, 3. *)
Theorem run_loop_visits_batches (has_openai dry_run : bool) (batch_size : Z)
  (coffees : list coffee) (st : run_state) :
  (0 < batch_size)%Z ->
  batched (Z.to_nat batch_size) (batches coffees (Z.to_nat batch_size)) /\
  List.concat (batches coffees (Z.to_nat batch_size)) = coffees /\
  loop has_openai dry_run batch_size coffees st = process_all' has_openai dry_run st coffees /\
  (List.length coffees = 13%nat -> batch_size = 5%Z ->
   map (@List.length _) (batches coffees (Z.to_nat batch_size)) = [5; 5; 3]%nat).
Proof.
  intro Hb.
  split; [apply batches_shape; lia|].
  split; [apply batches_concat; lia|].
  split; [apply run_loop_pos; exact Hb|].
  intros Hl H5. subst batch_size. rewrite batches_lengths, Hl. reflexivity.
Qed.

Local Abbreviation main' := (main py_hash openai_embed rpc_update float_str).
Local Abbreviation run_script' := (run_script py_hash openai_embed rpc_update float_str).

Lemma main_exit_code (e : env) (code : Z) : main' e = MExit code -> code = 1%Z.
Proof.
  unfold main. cbv zeta.
  destruct (_ || _); [intro Hm; injection Hm as <-; reflexivity|].
  destruct (negb (create_client_ok e)); [intro Hm; injection Hm as <-; reflexivity|].
  destruct (get_coffee_data _ _ _) as [|c cs]; [discriminate|].
  destruct (_ && _ && _); [discriminate|].
  destruct (loop _ _ _ _ _); discriminate.
Qed.

(** C10: in a run that completes with [batch_size > 0], [updated] and
    [failed] start at 0, every processed record adds one to exactly one of
    them, and at the end [updated + failed] is the size of the work set. *)
Theorem main_counters_total (e : env) (st : run_state) :
  (0 < batch_size e)%Z ->
  main' e = MReturn (Some st) ->
  (updated st + failed st
   = List.length (get_coffee_data (coffees_resp e) (logs_resp e) (force_all e)))%nat /\
  (forall has_openai dry_run s c s',
     process has_openai dry_run s c = Ok s' ->
     (updated s' = S (updated s) /\ failed s' = failed s) \/
     (updated s' = updated s /\ failed s' = S (failed s))).
Proof.
  intros Hb Hm. split; [|intros ? ? ? ? ?; apply process_coffee_one].
  revert Hm. unfold main. cbv zeta.
  destruct (_ || _); [discriminate|].
  destruct (negb (create_client_ok e)); [discriminate|].
  destruct (get_coffee_data _ _ _) as [|c cs]; [discriminate|].
  destruct (_ && _ && _); [discriminate|].
  rewrite run_loop_pos by exact Hb.
  destruct (process_all' _ _ _ (c :: cs)) as [s|ex] eqn:Er; [|discriminate].
  intro Hm; injection Hm as <-.
  apply process_all_total in Er. cbn [updated failed] in Er. lia.
Qed.

(** C6 (amended): the script exits with 0 exactly when [main] returns, which
    covers every completed run (also with failed records), a start where the
    gateway cannot be read ([get_coffee_data] turns the error into an empty
    work set) and a run declined at the fallback prompt; it exits with 1 on
    missing Supabase credentials or a failed client creation, on any exception
    escaping [main], and on KeyboardInterrupt, so cancellation and unhandled
    failures share the status 1. *)
Theorem exit_status (e : env) :
  (run_script' e false = 0%Z <-> exists r, main' e = MReturn r) /\
  (forall ex, main' e = MRaise ex -> run_script' e false = 1%Z) /\
  run_script' e true = 1%Z /\
  (Py.truthy_str (py_or (arg_supabase_url e) (env_supabase_url e)) = false ->
   run_script' e false = 1%Z) /\
  (Py.truthy_str (py_or (arg_supabase_key e) (env_supabase_key e)) = false ->
   run_script' e false = 1%Z) /\
  (create_client_ok e = false -> run_script' e false = 1%Z) /\
  (coffees_resp e = None -> main' e = MExit 1 \/ main' e = MReturn None).
Proof.
  unfold run_script.
  split.
  { destruct (main' e) as [r|code|ex] eqn:Em; cbn [guard_exit].
    - split; [intros _; exists r; reflexivity | reflexivity].
    - apply main_exit_code in Em. subst. split; [discriminate|].
      intros [r Hr]; discriminate.
    - split; [destruct ex; discriminate | intros [r Hr]; discriminate]. }
  split; [intros ex Hex; rewrite Hex; destruct ex; reflexivity|].
  split; [reflexivity|].
  unfold main; cbv zeta.
  split; [intro Hu; rewrite Hu; reflexivity|].
  split; [intro Hk; rewrite Hk, orb_true_r; reflexivity|].
  split.
  { intro Hc. rewrite Hc. destruct (_ || _); reflexivity. }
  intro Hn. rewrite Hn. destruct (_ || _); [left; reflexivity|].
  destruct (negb (create_client_ok e)); [left | right]; reflexivity.
Qed.

End RunnerProps.

(* ------------------------------------------------------------------ *)
(** ** Runner: concrete runs *)

(** C4 (counterexample): one tagged record, fallback generator, a gateway whose
    writes do not return [True]: the live run counts 0 updated, the dry run 1. *)
Lemma dry_run_count_differs :
  match run_loop (Fixtures.hash_const 0) Fixtures.openai_down Fixtures.rpc_all_false
          Fixtures.float_repr false false 5 [Fixtures.old_embedded] (mk_state 0 0 []),
        run_loop (Fixtures.hash_const 0) Fixtures.openai_down Fixtures.rpc_all_false
          Fixtures.float_repr false true 5 [Fixtures.old_embedded] (mk_state 0 0 []) with
  | Ok live, Ok dry => updated live = 0%nat /\ updated dry = 1%nat
  | _, _ => False
  end.
Proof. vm_compute. split; reflexivity. Qed.

(** C6 (counterexample): a KeyboardInterrupt and an unhandled ValueError
    ([--batch-size 0]) end with the same status 1, and a gateway that cannot be
    read at start-up ends with status 0. *)
Lemma exit_status_collisions :
  run_script (Fixtures.hash_const 0) Fixtures.openai_down Fixtures.rpc_all_true
    Fixtures.float_repr Fixtures.env_thirteen true
  = run_script (Fixtures.hash_const 0) Fixtures.openai_down Fixtures.rpc_all_true
      Fixtures.float_repr Fixtures.env_zero_batch false /\
  main (Fixtures.hash_const 0) Fixtures.openai_down Fixtures.rpc_all_true
    Fixtures.float_repr Fixtures.env_zero_batch = MRaise ValueError /\
  run_script (Fixtures.hash_const 0) Fixtures.openai_down Fixtures.rpc_all_true
    Fixtures.float_repr Fixtures.env_gateway_down false = 0%Z.
Proof. split; [|split]; vm_compute; reflexivity. Qed.

Lemma run_loop_visits_batches_witness :
  (0 < 5)%Z /\
  batched (Z.to_nat 5) (batches Fixtures.thirteen (Z.to_nat 5)) /\
  List.concat (batches Fixtures.thirteen (Z.to_nat 5)) = Fixtures.thirteen /\
  run_loop (Fixtures.hash_const 0) Fixtures.openai_down Fixtures.rpc_all_true
    Fixtures.float_repr false false 5 Fixtures.thirteen (mk_state 0 0 [])
  = process_all (Fixtures.hash_const 0) Fixtures.openai_down Fixtures.rpc_all_true
      Fixtures.float_repr false false (mk_state 0 0 []) Fixtures.thirteen /\
  (List.length Fixtures.thirteen = 13%nat -> 5%Z = 5%Z ->
   map (@List.length _) (batches Fixtures.thirteen (Z.to_nat 5)) = [5; 5; 3]%nat).
Proof.
  split; [lia|].
  apply (run_loop_visits_batches (Fixtures.hash_const 0) Fixtures.openai_down
           Fixtures.rpc_all_true Fixtures.float_repr false false 5 Fixtures.thirteen
           (mk_state 0 0 [])).
  lia.
Defined.

Lemma main_counters_total_witness :
  (0 < batch_size Fixtures.env_thirteen)%Z /\
  main (Fixtures.hash_const 0) Fixtures.openai_down Fixtures.rpc_all_true
    Fixtures.float_repr Fixtures.env_thirteen = MReturn (Some Fixtures.st_thirteen) /\
  (updated Fixtures.st_thirteen + failed Fixtures.st_thirteen
   = List.length (get_coffee_data (coffees_resp Fixtures.env_thirteen)
                    (logs_resp Fixtures.env_thirteen) (force_all Fixtures.env_thirteen)))%nat.
Proof.
  assert (Hb : (0 < batch_size Fixtures.env_thirteen)%Z) by reflexivity.
  assert (Hm : main (Fixtures.hash_const 0) Fixtures.openai_down Fixtures.rpc_all_true
                 Fixtures.float_repr Fixtures.env_thirteen
               = MReturn (Some Fixtures.st_thirteen)) by (vm_compute; reflexivity).
  split; [exact Hb|]. split; [exact Hm|].
  exact (proj1 (main_counters_total (Fixtures.hash_const 0) Fixtures.openai_down
                  Fixtures.rpc_all_true Fixtures.float_repr Fixtures.env_thirteen
                  Fixtures.st_thirteen Hb Hm)).
Defined.

(* ------------------------------------------------------------------ *)
(** ** Further properties of the updater *)

Lemma lower_char_idem (c : ascii) : Py.lower_char (Py.lower_char c) = Py.lower_char c.
Proof. destruct c as [[] [] [] [] [] [] [] []]; reflexivity. Qed.

Lemma lower_idem (s : string) : Py.lower (Py.lower s) = Py.lower s.
Proof. induction s as [|c s IH]; cbn [Py.lower]; [reflexivity|]. rewrite lower_char_idem, IH. reflexivity. Qed.

Section FallbackKeywords.
Context {F : Type} `{PyFloat F}.

Lemma base_of_tags_keywords_from (b : list F) (tags1 tags2 : list string) :
  map (fun t => find_flavor (Py.lower t) flavor_map) tags1
  = map (fun t => find_flavor (Py.lower t) flavor_map) tags2 ->
  fold_left fallback_step tags1 b = fold_left fallback_step tags2 b.
Proof.
  revert b tags2; induction tags1 as [|t1 ts1 IH]; intros b [|t2 ts2] Hm;
    cbn [map] in Hm; try discriminate; [reflexivity|].
  pose proof (f_equal (hd None) Hm) as Ht. pose proof (f_equal (@tl _) Hm) as Hts.
  cbn [hd tl] in Ht, Hts. cbn [fold_left].
  replace (fallback_step b t1) with (fallback_step b t2)
    by (unfold fallback_step; rewrite Ht; reflexivity).
  apply IH, Hts.
Qed.

Lemma base_of_tags_keywords (tags1 tags2 : list string) :
  map (fun t => find_flavor (Py.lower t) flavor_map) tags1
  = map (fun t => find_flavor (Py.lower t) flavor_map) tags2 ->
  base_of_tags tags1 = base_of_tags tags2.
Proof. apply base_of_tags_keywords_from. Qed.

(** X1: the fallback vector depends on the tags only through the flavor
    keyword each tag matches (or none), in order: two tag lists that match the
    same keywords give the same result. *)
Theorem generate_fallback_embedding_keywords (py_hash : string -> Z)
  (tags1 tags2 : list string) :
  map (fun t => find_flavor (Py.lower t) flavor_map) tags1
  = map (fun t => find_flavor (Py.lower t) flavor_map) tags2 ->
  generate_fallback_embedding py_hash tags1 = generate_fallback_embedding py_hash tags2.
Proof.
  intro Hm. unfold generate_fallback_embedding.
  rewrite (base_of_tags_keywords tags1 tags2 Hm). reflexivity.
Qed.

(** X2: lower-casing the tags never changes the fallback vector. *)
Theorem generate_fallback_embedding_case (py_hash : string -> Z) (tags : list string) :
  generate_fallback_embedding py_hash (map Py.lower tags)
  = generate_fallback_embedding py_hash tags.
Proof.
  unfold generate_fallback_embedding.
  rewrite (base_of_tags_keywords (map Py.lower tags) tags); [reflexivity|].
  rewrite map_map. apply map_ext. intro t. rewrite lower_idem. reflexivity.
Qed.

End FallbackKeywords.

Lemma generate_fallback_embedding_keywords_witness :
  map (fun t => find_flavor (F := float) (Py.lower t) flavor_map) ["Sweet"; "xyz"]%string
  = map (fun t => find_flavor (Py.lower t) flavor_map) ["very sweet finish"; "earthy"]%string /\
  generate_fallback_embedding (F := float) (Fixtures.hash_const 0) ["Sweet"; "xyz"]%string
  = generate_fallback_embedding (Fixtures.hash_const 0) ["very sweet finish"; "earthy"]%string.
Proof.
  assert (Hm : map (fun t => find_flavor (F := float) (Py.lower t) flavor_map) ["Sweet"; "xyz"]%string
    = map (fun t => find_flavor (Py.lower t) flavor_map) ["very sweet finish"; "earthy"]%string)
    by (vm_compute; reflexivity).
  split; [exact Hm|].
  apply (generate_fallback_embedding_keywords (Fixtures.hash_const 0) _ _ Hm).
Defined.

Section FallbackLayout.
Context {F : Type} `{PyFloat F}.
Variable py_hash : string -> Z.
Variable normalized : list F.
Hypothesis normalized_5 : List.length normalized = 5%nat.

Local Abbreviation laid_out full :=
  (forall k, (k < List.length full)%nat ->
     nth k (full : list F) (f_of_Z 0)
     = f_mul (nth (k mod 5) normalized (f_of_Z 0)) (position_factor py_hash k)).

Lemma extend_inner_laid_out (rest full : list F) :
  laid_out full ->
  (forall m, (m < List.length rest)%nat ->
     nth m rest (f_of_Z 0) = nth ((List.length full + m) mod 5) normalized (f_of_Z 0)) ->
  laid_out (extend_inner py_hash rest full).
Proof.
  revert full; induction rest as [|v rest IH]; intros full Hf Hr; cbn [extend_inner]; [exact Hf|].
  assert (Hf' : laid_out (full ++ [variation py_hash full v])).
  { intros k Hk. rewrite length_app in Hk; cbn [List.length] in Hk.
    destruct (Nat.lt_ge_cases k (List.length full)) as [Hlt|Hge].
    - rewrite app_nth1 by exact Hlt. apply Hf, Hlt.
    - assert (k = List.length full) by lia; subst k.
      rewrite app_nth2, Nat.sub_diag by lia. cbn [nth].
      specialize (Hr 0%nat ltac:(cbn [List.length]; lia)). cbn [nth] in Hr.
      rewrite Nat.add_0_r in Hr. rewrite Hr. reflexivity. }
  destruct (VECTOR_DIMENSIONS <=? List.length (full ++ [variation py_hash full v]))%nat;
    [exact Hf'|].
  apply IH; [exact Hf'|].
  intros m Hm. rewrite length_app; cbn [List.length].
  specialize (Hr (S m) ltac:(cbn [List.length]; lia)). cbn [nth] in Hr.
  rewrite Hr. f_equal. f_equal. lia.
Qed.

Lemma extend_inner_len (rest full : list F) :
  List.length (extend_inner py_hash rest full) = (List.length full + List.length rest)%nat \/
  (VECTOR_DIMENSIONS <= List.length (extend_inner py_hash rest full))%nat.
Proof.
  revert full; induction rest as [|v rest IH]; intro full; cbn [extend_inner].
  - left; cbn; lia.
  - destruct (VECTOR_DIMENSIONS <=? List.length (full ++ [variation py_hash full v]))%nat eqn:E.
    + right. apply Nat.leb_le in E. exact E.
    + destruct (IH (full ++ [variation py_hash full v])) as [Hl|Hl]; [left|right; exact Hl].
      rewrite Hl, length_app. cbn [List.length]. lia.
Qed.

Lemma extend_outer_laid_out (fuel : nat) (full r : list F) :
  laid_out full -> ((List.length full mod 5 = 0)%nat \/ (VECTOR_DIMENSIONS <= List.length full)%nat) ->
  extend_outer py_hash fuel normalized full = Some r ->
  laid_out r /\ (VECTOR_DIMENSIONS <= List.length r)%nat.
Proof.
  revert full; induction fuel as [|f IH]; intros full Hf Hmod; cbn [extend_outer];
    destruct (List.length full <? VECTOR_DIMENSIONS)%nat eqn:Elt; try discriminate;
    try (intro Hr; injection Hr as <-; split; [exact Hf | apply Nat.ltb_ge; exact Elt]).
  apply Nat.ltb_lt in Elt.
  assert (H0 : (List.length full mod 5 = 0)%nat) by (destruct Hmod; [assumption | lia]).
  apply IH.
  - apply extend_inner_laid_out; [exact Hf|].
    intros m Hm. rewrite normalized_5 in Hm. f_equal.
    rewrite (Nat.div_mod_eq (List.length full) 5), H0, Nat.add_0_r.
    rewrite Nat.mul_comm, Nat.add_comm, Nat.Div0.mod_add. symmetry. apply Nat.mod_small, Hm.
  - destruct (extend_inner_len normalized full) as [Hl|Hl]; [left|right; exact Hl].
    rewrite Hl, normalized_5.
    replace (List.length full + 5)%nat with (List.length full + 1 * 5)%nat by lia.
    rewrite Nat.Div0.mod_add. exact H0.
Qed.

End FallbackLayout.

(** X3: a fallback vector is the normalized 5-entry base vector laid out
    over all 1536 positions: position [k] holds [normalized[k % 5]] times the
    factor [0.95 + (hash(str(k)) % 10) / 100]. *)
Theorem generate_fallback_embedding_layout {F : Type} `{PyFloat F} (py_hash : string -> Z)
  (flavor_tags : list string) (v : list F) :
  generate_fallback_embedding py_hash flavor_tags = Some v ->
  exists normalized,
    normalize (base_of_tags flavor_tags) = Some normalized /\
    List.length normalized = 5%nat /\
    forall k, (k < VECTOR_DIMENSIONS)%nat ->
      nth k v (f_of_Z 0)
      = f_mul (nth (k mod 5) normalized (f_of_Z 0)) (position_factor py_hash k).
Proof.
  unfold generate_fallback_embedding.
  destruct (normalize (base_of_tags flavor_tags)) as [normalized|] eqn:En; [|discriminate].
  assert (H5 : List.length normalized = 5%nat)
    by (apply omap_length in En; rewrite En; apply base_of_tags_length).
  destruct (extend_outer py_hash VECTOR_DIMENSIONS normalized []) as [r|] eqn:Er;
    [|discriminate].
  intro Hv. assert (Hv' : v = firstn VECTOR_DIMENSIONS r) by congruence. subst v. clear Hv.
  destruct (extend_outer_laid_out py_hash normalized H5 VECTOR_DIMENSIONS [] r)
    as [Hr Hlen]; [intros k Hk; cbn in Hk; lia | left; reflexivity | exact Er |].
  exists normalized. split; [reflexivity|]. split; [exact H5|].
  intros k Hk. rewrite nth_firstn.
  replace (k <? VECTOR_DIMENSIONS)%nat with true by (symmetry; apply Nat.ltb_lt; exact Hk).
  apply Hr. lia.
Qed.


Section DetectorMore.

Lemma filter_need_update_none (cs : list coffee) :
  filter_need_update None cs
  = if existsb (fun c => Py.truthy_str (coffee_updated c)) cs then None
    else Some (filter (fun c => negb (Py.truthy_str (c_flavor_embedding c))) cs).
Proof.
  induction cs as [|c cs IH]; [reflexivity|]. cbn [filter_need_update existsb filter].
  rewrite IH. unfold updated_since.
  destruct (coffee_updated c) as [u|] eqn:Eu.
  - destruct (Py.truthy_str (Some u)) eqn:Et; cbn [orb]; [reflexivity|].
    destruct (existsb _ cs); [reflexivity|].
    destruct (negb (Py.truthy_str (c_flavor_embedding c))); reflexivity.
  - cbn [Py.truthy_str orb]. destruct (existsb _ cs); [reflexivity|].
    destruct (negb (Py.truthy_str (c_flavor_embedding c))); reflexivity.
Qed.

Lemma ascii_compare_N (a b : ascii) :
  Ascii.compare a b = N.compare (N_of_ascii a) (N_of_ascii b).
Proof. reflexivity. Qed.

Lemma string_compare_gt_trans (a b c : string) :
  String.compare a b = Gt -> String.compare b c = Gt -> String.compare a c = Gt.
Proof.
  revert b c; induction a as [|x a IH]; intros [|y b] [|z c]; cbn [String.compare];
    try discriminate; try reflexivity.
  rewrite !ascii_compare_N.
  destruct (N.compare_spec (N_of_ascii x) (N_of_ascii y)) as [E1|E1|E1];
  destruct (N.compare_spec (N_of_ascii y) (N_of_ascii z)) as [E2|E2|E2];
  destruct (N.compare_spec (N_of_ascii x) (N_of_ascii z)) as [E3|E3|E3];
  intros H1 H2; try discriminate; try reflexivity; try lia.
  apply (IH b c H1 H2).
Qed.

Lemma str_gt_le_trans (u t1 t2 : string) :
  Py.str_gt u t2 = true -> Py.str_gt t1 t2 = false -> Py.str_gt u t1 = true.
Proof.
  unfold Py.str_gt.
  destruct (String.compare u t2) eqn:E1; try discriminate.
  destruct (String.compare t1 t2) eqn:E2; try discriminate; intros _ _.
  - apply String.compare_eq_iff in E2. subst t2. rewrite E1. reflexivity.
  - rewrite String.compare_antisym in E2.
    destruct (String.compare t2 t1) eqn:E3; try discriminate.
    rewrite (string_compare_gt_trans _ _ _ E1 E3). reflexivity.
Qed.

Lemma keep_since_mono (t1 t2 : string) (c : coffee) :
  Py.str_gt t1 t2 = false -> keep_since t2 c = true -> keep_since t1 c = true.
Proof.
  intro Ht. unfold keep_since.
  destruct (coffee_updated c) as [u|]; [|tauto].
  rewrite !orb_true_iff, !andb_true_iff.
  intros [[Hu Hg]|Hn]; [left; split; [exact Hu | eapply str_gt_le_trans; eassumption]|right; exact Hn].
Qed.

End DetectorMore.

(** X5: when the table read returns rows, [get_coffee_data] returns a
    sub-list of those rows in table order: it never adds, repeats or reorders
    a record. *)
Theorem get_coffee_data_filters (coffees : list coffee)
  (logs_resp : option (list (option string))) (force_all : bool) :
  exists keep : coffee -> bool,
    get_coffee_data (Some coffees) logs_resp force_all = filter keep coffees.
Proof.
  assert (Hall : coffees = filter (fun _ => true) coffees)
    by (symmetry; apply forallb_filter_id, forallb_forall; reflexivity).
  assert (Hnone : [] = filter (fun _ => false) coffees)
    by (symmetry; apply filter_false).
  destruct coffees as [|c0 cs0]; [exists (fun _ => true); reflexivity|].
  unfold get_coffee_data.
  destruct force_all; [exists (fun _ => true); exact Hall|].
  destruct logs_resp as [[|[t|] older]|]; try (exists (fun _ => true); exact Hall).
  - rewrite filter_need_update_some. exists (keep_since t). reflexivity.
  - rewrite filter_need_update_none.
    destruct (existsb _ _); [exists (fun _ => false); exact Hnone|].
    eexists; reflexivity.
Qed.

(** X6: when the latest update log has a null [created_at] and some row has
    a truthy [updated_at] (or [created_at]), the comparison with [None] raises
    and [get_coffee_data] returns no rows. *)
Theorem get_coffee_data_null_sync (coffees : list coffee) (older : list (option string))
  (c : coffee) :
  In c coffees -> Py.truthy_str (coffee_updated c) = true ->
  get_coffee_data (Some coffees) (Some (None :: older)) false = [].
Proof.
  intros Hin Hu. unfold get_coffee_data.
  destruct coffees as [|c0 cs0]; [reflexivity|].
  rewrite filter_need_update_none.
  replace (existsb _ _) with true; [reflexivity|].
  symmetry. apply existsb_exists. exists c. split; assumption.
Qed.

(** X7: an earlier (or equal) last sync time selects every row that a later
    one selects. *)
Theorem get_coffee_data_later_sync (coffees : list coffee) (t1 t2 : string)
  (older1 older2 : list (option string)) :
  Py.str_gt t1 t2 = false ->
  incl (get_coffee_data (Some coffees) (Some (Some t2 :: older2)) false)
       (get_coffee_data (Some coffees) (Some (Some t1 :: older1)) false).
Proof.
  intros Ht. unfold get_coffee_data.
  destruct coffees as [|c0 cs0]; [apply incl_refl|].
  rewrite !filter_need_update_some.
  intros c Hc. apply filter_In in Hc. apply filter_In.
  split; [apply Hc | apply (keep_since_mono t1 t2 c Ht), Hc].
Qed.

Section RunnerMore.
Context {F : Type} `{PyFloat F}.
Variable py_hash : string -> Z.
Variable openai_embed : string -> option (list F).
Variable rpc_update : Z -> string -> rpc_result.
Variable float_str : F -> string.

Local Abbreviation update := (update_coffee_embedding py_hash openai_embed rpc_update float_str).
Local Abbreviation process := (process_coffee py_hash openai_embed rpc_update float_str).
Local Abbreviation process_all' := (process_all py_hash openai_embed rpc_update float_str).
Local Abbreviation loop := (run_loop py_hash openai_embed rpc_update float_str).

Lemma run_loop_ok_cases (has_openai dry_run : bool) (batch_size : Z) (coffees : list coffee)
  (st st' : run_state) :
  loop has_openai dry_run batch_size coffees st = Ok st' ->
  st' = st \/ process_all' has_openai dry_run st coffees = Ok st'.
Proof.
  destruct (Z.lt_trichotomy batch_size 0) as [Hb|[Hb|Hb]].
  - unfold run_loop. replace (batch_size =? 0)%Z with false by (symmetry; apply Z.eqb_neq; lia).
    replace (batch_size <? 0)%Z with true by (symmetry; apply Z.ltb_lt; lia).
    intro Hs; injection Hs as ->. left; reflexivity.
  - subst. discriminate.
  - rewrite run_loop_pos by exact Hb. right; exact H0.
Qed.

(** What one call adds to the trace. *)
Lemma update_appends (has_openai dry_run : bool) (c : coffee) (tr tr' : list event) (b : bool) :
  update has_openai dry_run c tr = Ok (b, tr') ->
  exists nl, tr' = tr ++ nl /\
    (dry_run = false -> (if b then 1 else 0)%nat = rpc_successes rpc_update nl) /\
    (rpc_ids nl = [] \/ rpc_ids nl = [c_id c]) /\
    (forall i s, In (EvRPC i s) nl ->
       exists v, List.length v = VECTOR_DIMENSIONS /\
                 s = ("[" ++ join "," (map float_str v) ++ "]")%string).
Proof.
  unfold update_coffee_embedding.
  destruct (c_flavor_tags c) as [[|t ts]|].
  2: {
  set (gen := if has_openai then _ else _).
  assert (Hgen : forall g tr0, gen = Ok (g, tr0) ->
            (exists ev, tr0 = tr ++ [ev] /\ is_rpc ev = false) /\
            (forall v, g = Some v -> List.length v = VECTOR_DIMENSIONS)).
  { intros g tr0. unfold gen. destruct has_openai.
    - intro Hg; injection Hg as <- <-. split; [eexists; split; reflexivity|].
      unfold generate_openai_embedding. intro v.
      destruct (openai_embed _) as [w|]; [|discriminate].
      destruct (List.length w =? VECTOR_DIMENSIONS)%nat eqn:Ew; [|discriminate].
      intro Hw; injection Hw as <-. apply Nat.eqb_eq, Ew.
    - destruct (generate_fallback_embedding py_hash (t :: ts)) as [w|] eqn:Ew; [|discriminate].
      intro Hg; injection Hg as <- <-. split; [eexists; split; reflexivity|].
      intros v Hv; injection Hv as <-. apply (generate_fallback_embedding_length py_hash _ _ Ew). }
  destruct gen as [[g tr0]|e]; [|discriminate].
  destruct (Hgen g tr0 eq_refl) as [[ev [-> Hev]] Hlen].
  assert (Hnil : rpc_ids [ev] = [] /\ rpc_successes rpc_update [ev] = 0%nat)
    by (destruct ev; try discriminate; split; reflexivity).
  destruct g as [[|x xs]|].
  - intro Hs; injection Hs as <- <-. exists [ev]. split; [reflexivity|].
    split; [intros _; symmetry; apply Hnil|]. split; [left; apply Hnil|].
    intros i s [Hi|[]]; subst ev; discriminate.
  - specialize (Hlen (x :: xs) eq_refl).
    remember ("[" ++ join "," (map float_str (x :: xs)) ++ "]")%string as es eqn:Ees.
    destruct dry_run.
    + intro Hs; injection Hs as <- <-. exists [ev]. split; [reflexivity|].
      split; [discriminate|]. split; [left; apply Hnil|].
      intros i s [Hi|[]]; subst ev; discriminate.
    + destruct (rpc_update (c_id c) _) eqn:Er; intro Hs; injection Hs as <- <-;
        (eexists; split; [rewrite <- app_assoc; reflexivity|]);
        (split; [intros _; destruct Hnil as [_ Hs0]; unfold rpc_successes in *;
                 rewrite filter_app, length_app, Hs0;
                 cbn [filter is_rpc is_failed_rpc]; rewrite Er; reflexivity|]);
        (split; [right; destruct Hnil as [Hi0 _]; unfold rpc_ids in *;
                 rewrite flat_map_app, Hi0; reflexivity|]);
        (intros i s Hin; apply in_app_or in Hin; destruct Hin as [[Hin|[]]|[Hin|[]]];
           [subst ev; discriminate|];
         injection Hin as <- <-; exists (x :: xs); split; [exact Hlen | exact Ees]).
  - intro Hs; injection Hs as <- <-. exists [ev]. split; [reflexivity|].
    split; [intros _; symmetry; apply Hnil|]. split; [left; apply Hnil|].
    intros i s [Hi|[]]; subst ev; discriminate. }
  all: intro Hs; injection Hs as <- <-; exists [EvWarnNoTags (c_id c)];
    split; [reflexivity|]; split; [reflexivity|]; split; [left; reflexivity|];
    intros i s [Hi|[]]; discriminate.
Qed.

Lemma rpc_successes_app (l1 l2 : list event) :
  rpc_successes rpc_update (l1 ++ l2) = (rpc_successes rpc_update l1 + rpc_successes rpc_update l2)%nat.
Proof. unfold rpc_successes. rewrite filter_app, length_app. reflexivity. Qed.

Lemma rpc_ids_app (l1 l2 : list event) : rpc_ids (l1 ++ l2) = rpc_ids l1 ++ rpc_ids l2.
Proof. unfold rpc_ids. apply flat_map_app. Qed.

Lemma subseq_nil_l {A} (l : list A) : subseq [] l.
Proof. induction l; constructor; assumption. Qed.

Lemma subseq_in {A} (l l' : list A) (x : A) : subseq l l' -> In x l -> In x l'.
Proof.
  induction 1 as [|y l l' Hs IH|y l l' Hs IH]; [tauto| |].
  - intros [<-|Hx]; [left; reflexivity | right; apply IH, Hx].
  - intro Hx; right; apply IH, Hx.
Qed.

Lemma subseq_nodup {A} (l l' : list A) : subseq l l' -> NoDup l' -> NoDup l.
Proof.
  induction 1 as [|y l l' Hs IH|y l l' Hs IH]; intro Hn; [constructor| |].
  - inversion Hn as [|? ? Hy Hn']; subst. constructor; [|apply IH, Hn'].
    intro Hin; apply Hy, (subseq_in _ _ _ Hs Hin).
  - inversion Hn as [|? ? Hy Hn']; subst. apply IH, Hn'.
Qed.

Lemma process_all_rpcs (has_openai dry_run : bool) (coffees : list coffee)
  (st st' : run_state) :
  process_all' has_openai dry_run st coffees = Ok st' ->
  exists nl ids, trace st' = trace st ++ nl /\
    rpc_ids nl = ids /\ subseq ids (map c_id coffees) /\
    (dry_run = false ->
     updated st' + rpc_successes rpc_update (trace st)
     = updated st + rpc_successes rpc_update (trace st'))%nat /\
    (forall i s, In (EvRPC i s) nl ->
       exists v, List.length v = VECTOR_DIMENSIONS /\
                 s = ("[" ++ join "," (map float_str v) ++ "]")%string).
Proof.
  revert st; induction coffees as [|c cs IH]; intros st Hs; cbn [process_all] in Hs.
  - injection Hs as <-. exists [], []. rewrite app_nil_r.
    split; [reflexivity|]. split; [reflexivity|]. split; [constructor|].
    split; [intros _; lia | intros i s []].
  - destruct (process has_openai dry_run st c) as [s1|] eqn:E1; [|discriminate].
    destruct (IH s1 Hs) as [nl2 [ids2 [Ht2 [Hi2 [Hsub2 [Hu2 Hp2]]]]]].
    unfold process_coffee in E1.
    destruct (update has_openai dry_run c (trace st)) as [[b tr]|] eqn:Eu; [|discriminate].
    destruct (update_appends has_openai dry_run c (trace st) tr b Eu)
      as [nl1 [Ht1 [Hu1 [Hi1 Hp1]]]].
    assert (Hs1 : trace s1 = tr /\
                  updated s1 = ((if b then 1 else 0) + updated st)%nat)
      by (destruct b; injection E1 as <-; split; reflexivity).
    destruct Hs1 as [Htr Hupd].
    exists (nl1 ++ nl2), (rpc_ids nl1 ++ ids2).
    split; [rewrite Ht2, Htr, Ht1, app_assoc; reflexivity|].
    split; [rewrite rpc_ids_app, Hi2; reflexivity|].
    split; [destruct Hi1 as [-> | ->]; cbn [app map];
            [apply subseq_skip | apply subseq_keep]; exact Hsub2|].
    split.
    + intro Hd. specialize (Hu1 Hd). specialize (Hu2 Hd).
      rewrite Ht2, Htr, Ht1 in *. rewrite !rpc_successes_app in *. lia.
    + intros i s Hin. apply in_app_or in Hin.
      destruct Hin as [Hin|Hin]; [apply (Hp1 i s Hin) | apply (Hp2 i s Hin)].
Qed.

Lemma run_loop_rpcs (has_openai dry_run : bool) (batch_size : Z) (coffees : list coffee)
  (st : run_state) :
  loop has_openai dry_run batch_size coffees (mk_state 0 0 []) = Ok st ->
  subseq (rpc_ids (trace st)) (map c_id coffees) /\
  (dry_run = false -> updated st = rpc_successes rpc_update (trace st)) /\
  (forall i s, In (EvRPC i s) (trace st) ->
     exists v, List.length v = VECTOR_DIMENSIONS /\
               s = ("[" ++ join "," (map float_str v) ++ "]")%string).
Proof.
  intro Hl. destruct (run_loop_ok_cases _ _ _ _ _ _ Hl) as [->|Hp].
  - split; [apply subseq_nil_l|]. split; [reflexivity | intros i s []].
  - destruct (process_all_rpcs _ _ _ _ _ Hp) as [nl [ids [Ht [Hi [Hsub [Hu Hpay]]]]]].
    cbn [trace app] in Ht, Hu. subst ids. rewrite Ht.
    split; [exact Hsub|]. split; [|exact Hpay].
    intro Hd. specialize (Hu Hd). rewrite Ht in Hu.
    change (rpc_successes rpc_update []) with 0%nat in Hu. cbn [updated] in Hu. lia.
Qed.

(** In a live run, [updated] counts exactly the RPC calls that returned [True]. *)
(** X8: in a live run (no dry run) from zero counters, the final [updated]
    count equals the number of RPC calls that returned [True]. *)
Theorem live_updated_is_rpc_successes (has_openai : bool) (batch_size : Z)
  (coffees : list coffee) (st : run_state) :
  loop has_openai false batch_size coffees (mk_state 0 0 []) = Ok st ->
  updated st = rpc_successes rpc_update (trace st).
Proof. intro Hl. apply (run_loop_rpcs _ _ _ _ _ Hl). reflexivity. Qed.

(** X9: the ids written through the RPC are a subsequence of the work set's
    ids, in work-set order; with distinct ids no record is written twice. *)
Theorem rpc_writes_in_order (has_openai dry_run : bool) (batch_size : Z)
  (coffees : list coffee) (st : run_state) :
  loop has_openai dry_run batch_size coffees (mk_state 0 0 []) = Ok st ->
  subseq (rpc_ids (trace st)) (map c_id coffees) /\
  (NoDup (map c_id coffees) -> NoDup (rpc_ids (trace st))).
Proof.
  intro Hl. destruct (run_loop_rpcs _ _ _ _ _ Hl) as [Hsub _].
  split; [exact Hsub | apply subseq_nodup, Hsub].
Qed.

(** X10: each RPC call writes a record of the work set, and its payload is
    the bracketed, comma-joined rendering of a 1536-entry vector. *)
Theorem rpc_payload_shape (has_openai dry_run : bool) (batch_size : Z)
  (coffees : list coffee) (st : run_state) :
  loop has_openai dry_run batch_size coffees (mk_state 0 0 []) = Ok st ->
  forall i s, In (EvRPC i s) (trace st) ->
    In i (map c_id coffees) /\
    exists v, List.length v = VECTOR_DIMENSIONS /\
              s = ("[" ++ join "," (map float_str v) ++ "]")%string.
Proof.
  intros Hl i s Hin. destruct (run_loop_rpcs _ _ _ _ _ Hl) as [Hsub [_ Hpay]].
  split; [|apply (Hpay i s Hin)].
  apply (subseq_in _ _ _ Hsub). unfold rpc_ids. apply in_flat_map.
  exists (EvRPC i s). split; [exact Hin | left; reflexivity].
Qed.

End RunnerMore.


Lemma lower_char_y (c : ascii) :
  Ascii.eqb (Py.lower_char c) "y" = (Ascii.eqb c "y" || Ascii.eqb c "Y")%bool.
Proof. destruct c as [[] [] [] [] [] [] [] []]; reflexivity. Qed.

Lemma lower_eq_y (s : string) :
  String.eqb (Py.lower s) "y" = (String.eqb s "y" || String.eqb s "Y")%bool.
Proof.
  destruct s as [|c [|c' s']]; [reflexivity| |].
  - destruct c as [[] [] [] [] [] [] [] []]; reflexivity.
  - cbn [Py.lower String.eqb]. destruct (Ascii.eqb (Py.lower_char c) "y"), (Ascii.eqb c "y"), (Ascii.eqb c "Y"); reflexivity.
Qed.

Section MainMore.
Context {F : Type} `{PyFloat F}.
Variable py_hash : string -> Z.
Variable openai_embed : string -> option (list F).
Variable rpc_update : Z -> string -> rpc_result.
Variable float_str : F -> string.

Local Abbreviation main' := (main py_hash openai_embed rpc_update float_str).

(** X13: without an OpenAI key and without [--force-all], once the work set
    is non-empty, [main] cancels (returns without a result) exactly when the
    answer to the prompt is neither "y" nor "Y". *)
Theorem main_prompt_answer (e : env) :
  Py.truthy_str (py_or (arg_supabase_url e) (env_supabase_url e)) = true ->
  Py.truthy_str (py_or (arg_supabase_key e) (env_supabase_key e)) = true ->
  create_client_ok e = true ->
  Py.truthy_str (py_or (arg_openai_key e) (env_openai_key e)) = false ->
  force_all e = false ->
  get_coffee_data (coffees_resp e) (logs_resp e) (force_all e) <> [] ->
  (main' e = MReturn None <-> user_input e <> "y"%string /\ user_input e <> "Y"%string).
Proof.
  intros Hu Hk Hc Ho Hf Hw. unfold main. rewrite Hu, Hk, Hc, Ho. cbn [negb orb].
  destruct (get_coffee_data _ _ _) as [|c cs]; [contradiction|].
  rewrite Hf, lower_eq_y. cbn [negb andb].
  destruct (String.eqb_spec (user_input e) "y") as [Ey|Ey];
    destruct (String.eqb_spec (user_input e) "Y") as [EY|EY]; cbn [orb negb].
  all: try (split; [intros _; split; assumption | reflexivity]).
  all: destruct (run_loop _ _ _ _ _ _ _ _ _); split; try discriminate;
    intros [Hy HY]; contradiction.
Qed.

(** X14: with an OpenAI key or with [--force-all], the answer typed at the
    prompt has no effect on [main]. *)
Theorem main_ignores_input (e : env) (s : string) :
  Py.truthy_str (py_or (arg_openai_key e) (env_openai_key e)) = true \/ force_all e = true ->
  main' (with_input e s) = main' e.
Proof.
  intro Hof. unfold main, with_input.
  cbn [arg_supabase_url arg_supabase_key arg_openai_key env_supabase_url env_supabase_key
       env_openai_key create_client_ok coffees_resp logs_resp force_all batch_size dry_run
       user_input].
  destruct (_ || _)%bool; [reflexivity|].
  destruct (negb (create_client_ok e)); [reflexivity|].
  destruct (get_coffee_data _ _ _) as [|c cs]; [reflexivity|].
  destruct Hof as [Ho|Hf]; [rewrite Ho | rewrite Hf, andb_false_r]; reflexivity.
Qed.

(** X15: a negative batch size makes the batch loop empty: [main] exits with
    status 1, returns early, or finishes with both counters at zero. *)
Theorem main_negative_batch (e : env) :
  (batch_size e < 0)%Z ->
  main' e = MExit 1 \/ main' e = MReturn None \/ main' e = MReturn (Some (mk_state 0 0 [])).
Proof.
  intro Hb. unfold main.
  destruct (_ || _)%bool; [left; reflexivity|].
  destruct (negb (create_client_ok e)); [left; reflexivity|].
  destruct (get_coffee_data _ _ _) as [|c cs]; [right; left; reflexivity|].
  destruct (_ && _ && _)%bool; [right; left; reflexivity|].
  unfold run_loop.
  replace (batch_size e =? 0)%Z with false by (symmetry; apply Z.eqb_neq; lia).
  replace (batch_size e <? 0)%Z with true by (symmetry; apply Z.ltb_lt; lia).
  right; right; reflexivity.
Qed.

End MainMore.

Section TimedProps.
Context {F : Type} `{PyFloat F}.
Variable py_hash : string -> Z.
Variable openai_embed : string -> option (list F).
Variable rpc_update : Z -> string -> rpc_result.
Variable float_str : F -> string.
Variables (delay batch_delay : float) (has_openai dry_run : bool).
Variables (coffees : list coffee) (bs : nat).

Local Abbreviation process_all' :=
  (process_all py_hash openai_embed rpc_update float_str has_openai dry_run).
Local Abbreviation tcoffees :=
  (timed_coffees py_hash openai_embed rpc_update float_str delay has_openai dry_run).
Local Abbreviation tround :=
  (timed_round py_hash openai_embed rpc_update float_str delay batch_delay has_openai dry_run bs coffees).
Local Abbreviation sleep_of batch :=
  (fun c : coffee => if (PrimFloat.ltb 0 delay && negb (coffee_eqb c (last batch c)))%bool
                     then [TSleepRequest delay] else []).
Local Abbreviation slice j := (firstn bs (skipn j coffees)).
Local Abbreviation total := (List.length coffees).

Lemma tcoffees_spec (batch : list coffee) (st : run_state) (ticks : list tick) (cs : list coffee) :
  match tcoffees batch st ticks cs, process_all' st cs with
  | Ok (st1, ticks1), Ok st2 => st1 = st2 /\ ticks1 = ticks ++ flat_map (sleep_of batch) cs
  | Raise e1, Ok _ => e1 = OverflowError /\ sleep_overflows delay = true
  | Raise e1, Raise e2 => e1 = e2 \/ (e1 = OverflowError /\ sleep_overflows delay = true)
  | Ok _, Raise _ => False
  end.
Proof.
  revert st ticks; induction cs as [|c cs IH]; intros st ticks; cbn [timed_coffees process_all].
  - rewrite app_nil_r. split; reflexivity.
  - destruct (process_coffee py_hash openai_embed rpc_update float_str has_openai dry_run st c)
      as [s1|e]; [|left; reflexivity].
    cbn [flat_map].
    destruct (PrimFloat.ltb 0 delay && negb (coffee_eqb c (last batch c)))%bool.
    + destruct (sleep_overflows delay) eqn:Eo.
      * destruct (process_all' s1 cs); [split | right; split]; reflexivity.
      * specialize (IH s1 (ticks ++ [TSleepRequest delay])).
        destruct (tcoffees batch s1 _ cs) as [[st1 ticks1]|e1];
          destruct (process_all' s1 cs) as [st2|e2]; try exact IH.
        destruct IH as [-> ->]. rewrite <- app_assoc. split; reflexivity.
    + specialize (IH s1 ticks).
      destruct (tcoffees batch s1 ticks cs) as [[st1 ticks1]|e1];
        destruct (process_all' s1 cs) as [st2|e2]; exact IH.
Qed.

Lemma tfold_raise (R : list nat) (e : exn) : fold_left tround R (Raise e) = Raise e.
Proof. induction R as [|j R IH]; [reflexivity|]. cbn [fold_left]. apply IH. Qed.

Lemma tround_spec (j : nat) (st : run_state) (ticks : list tick) :
  match tround (Ok (st, ticks)) j, process_all' st (slice j) with
  | Ok (st1, ticks1), Ok st2 =>
      st1 = st2 /\
      ticks1 = ticks ++ [TBatch (j / bs + 1) ((total + bs - 1) / bs) (List.length (slice j))]
                     ++ flat_map (sleep_of (slice j)) (slice j)
                     ++ [TProgress (j + List.length (slice j)) total (updated st2) (failed st2)]
                     ++ (if ((j + bs <? total)%nat && PrimFloat.ltb 0 batch_delay)%bool
                         then [TSleepBatch batch_delay] else [])
  | Raise e1, Ok _ =>
      e1 = OverflowError /\ (sleep_overflows delay || sleep_overflows batch_delay)%bool = true
  | Raise e1, Raise e2 =>
      e1 = e2 \/
      (e1 = OverflowError /\ (sleep_overflows delay || sleep_overflows batch_delay)%bool = true)
  | Ok _, Raise _ => False
  end.
Proof.
  unfold timed_round.
  pose proof (tcoffees_spec (slice j) st
    (ticks ++ [TBatch (j / bs + 1) ((total + bs - 1) / bs) (List.length (slice j))]) (slice j))
    as Hs.
  destruct (tcoffees _ _ _ _) as [[st1 ticks1]|e1];
    destruct (process_all' st (slice j)) as [st2|e2]; try contradiction.
  - destruct Hs as [-> ->]. lazy beta iota zeta.
    destruct ((j + bs <? total)%nat && PrimFloat.ltb 0 batch_delay)%bool.
    + destruct (sleep_overflows batch_delay).
      * split; [reflexivity | apply orb_true_r].
      * split; [reflexivity|]. rewrite <- !app_assoc. reflexivity.
    + split; [reflexivity|]. rewrite app_nil_r, <- !app_assoc. reflexivity.
  - destruct Hs as [-> Ho]. split; [reflexivity|]. rewrite Ho. reflexivity.
  - destruct Hs as [->|[-> Ho]]; [left; reflexivity|].
    right. split; [reflexivity|]. rewrite Ho. reflexivity.
Qed.

Lemma tfold_spec (R : list nat) (st : run_state) (ticks : list tick) :
  match fold_left tround R (Ok (st, ticks)),
        process_batches py_hash openai_embed rpc_update float_str has_openai dry_run st
          (map (fun j => slice j) R) with
  | Ok (st1, _), Ok st2 => st1 = st2
  | Raise e1, Ok _ =>
      e1 = OverflowError /\ (sleep_overflows delay || sleep_overflows batch_delay)%bool = true
  | Raise e1, Raise e2 =>
      e1 = e2 \/
      (e1 = OverflowError /\ (sleep_overflows delay || sleep_overflows batch_delay)%bool = true)
  | Ok _, Raise _ => False
  end.
Proof.
  revert st ticks; induction R as [|j R IH]; intros st ticks; [reflexivity|].
  cbn [fold_left map process_batches].
  pose proof (tround_spec j st ticks) as Hr.
  destruct (tround (Ok (st, ticks)) j) as [[st1 ticks1]|e1];
    destruct (process_all' st (slice j)) as [st2|e2]; try contradiction.
  - destruct Hr as [-> _]. apply IH.
  - rewrite tfold_raise. lazy beta iota.
    destruct (process_batches py_hash openai_embed rpc_update float_str has_openai dry_run st2
                (map (fun j => slice j) R)); [exact Hr | right; exact Hr].
  - rewrite tfold_raise. exact Hr.
Qed.

End TimedProps.

(** The batch loop with its waits against the loop without them. *)
Lemma timed_plain_rel {F : Type} `{PyFloat F} (py_hash : string -> Z)
  (openai_embed : string -> option (list F)) (rpc_update : Z -> string -> rpc_result)
  (float_str : F -> string) (delay batch_delay : float) (has_openai dry_run : bool)
  (batch_size : Z) (coffees : list coffee) (st : run_state) :
  match timed_loop py_hash openai_embed rpc_update float_str delay batch_delay
          has_openai dry_run batch_size coffees st,
        run_loop py_hash openai_embed rpc_update float_str has_openai dry_run
          batch_size coffees st with
  | Ok (st1, _), Ok st2 => st1 = st2
  | Raise e1, Ok _ =>
      e1 = OverflowError /\ (sleep_overflows delay || sleep_overflows batch_delay)%bool = true
  | Raise e1, Raise e2 =>
      e1 = e2 \/
      (e1 = OverflowError /\ (sleep_overflows delay || sleep_overflows batch_delay)%bool = true)
  | Ok _, Raise _ => False
  end.
Proof.
  unfold timed_loop, run_loop.
  destruct (batch_size =? 0)%Z; [left; reflexivity|].
  destruct (batch_size <? 0)%Z; [reflexivity|].
  apply tfold_spec.
Qed.

(** X16: the waits and log lines of the batch loop do not change its
    counters.  When the loop with its waits returns, the loop without them
    returns the same state.  When it raises, the error is the one the loop
    without waits raises, or an OverflowError from [time.sleep], which needs
    [args.delay] or [args.batch_delay] to overflow.  So with both delays in
    range the two loops end alike. *)
Theorem timed_loop_counts {F : Type} `{PyFloat F} (py_hash : string -> Z)
  (openai_embed : string -> option (list F)) (rpc_update : Z -> string -> rpc_result)
  (float_str : F -> string) (delay batch_delay : float) (has_openai dry_run : bool)
  (batch_size : Z) (coffees : list coffee) (st : run_state) :
  match timed_loop py_hash openai_embed rpc_update float_str delay batch_delay
          has_openai dry_run batch_size coffees st,
        run_loop py_hash openai_embed rpc_update float_str has_openai dry_run
          batch_size coffees st with
  | Ok (st1, _), Ok st2 => st1 = st2
  | Raise e1, Ok _ =>
      e1 = OverflowError /\ (sleep_overflows delay || sleep_overflows batch_delay)%bool = true
  | Raise e1, Raise e2 =>
      e1 = e2 \/
      (e1 = OverflowError /\ (sleep_overflows delay || sleep_overflows batch_delay)%bool = true)
  | Ok _, Raise _ => False
  end.
Proof. apply timed_plain_rel. Qed.

Example timed_loop_inf_delay :
  timed_loop (Fixtures.hash_const 0) Fixtures.openai_down Fixtures.rpc_all_true
    Fixtures.float_repr PrimFloat.infinity 3%float false false 5 Fixtures.thirteen
    (mk_state 0 0 []) = Raise OverflowError /\
  run_loop (Fixtures.hash_const 0) Fixtures.openai_down Fixtures.rpc_all_true
    Fixtures.float_repr false false 5 Fixtures.thirteen (mk_state 0 0 []) = Ok Fixtures2.live_state.
Proof. split; vm_compute; reflexivity. Qed.

Section RunnerFloat.
Variable py_hash : string -> Z.
Variable openai_embed : string -> option (list float).
Variable rpc_update : Z -> string -> rpc_result.
Variable float_str : float -> string.

Local Abbreviation update := (update_coffee_embedding py_hash openai_embed rpc_update float_str).
Local Abbreviation process := (process_coffee py_hash openai_embed rpc_update float_str).
Local Abbreviation process_all' := (process_all py_hash openai_embed rpc_update float_str).
Local Abbreviation loop := (run_loop py_hash openai_embed rpc_update float_str).

Lemma fallback_some_prim (flavor_tags : list string) :
  exists v : list float, generate_fallback_embedding py_hash flavor_tags = Some v.
Proof. apply (generate_fallback_embedding_some (F := float)), normalize_base_some_prim. Qed.

Lemma process_all_ok_prim (has_openai dry_run : bool) (st : run_state) (coffees : list coffee) :
  exists st', process_all' has_openai dry_run st coffees = Ok st'.
Proof.
  revert st; induction coffees as [|c cs IH]; intro st; [eexists; reflexivity|].
  cbn [process_all]. unfold process_coffee.
  destruct (update has_openai dry_run c (trace st)) as [[b tr]|e] eqn:Eu.
  - destruct b; apply IH.
  - destruct (update_raise py_hash openai_embed rpc_update float_str _ _ _ _ _ Eu)
      as [_ [_ [tags [_ Hg]]]].
    destruct (fallback_some_prim tags) as [v Hv]. congruence.
Qed.

Lemma process_batches_ok_prim (has_openai dry_run : bool) (st : run_state)
  (bl : list (list coffee)) :
  exists st', process_batches py_hash openai_embed rpc_update float_str has_openai dry_run st bl
              = Ok st'.
Proof.
  revert st; induction bl as [|b bl IH]; intro st; [eexists; reflexivity|].
  cbn [process_batches]. destruct (process_all_ok_prim has_openai dry_run st b) as [s1 E].
  rewrite E. apply IH.
Qed.

Lemma process_dry_fallback_prim (st : run_state) (c : coffee) :
  exists tr, process false true st c
    = Ok (if tags_falsy (c_flavor_tags c)
          then mk_state (updated st) (S (failed st)) tr
          else mk_state (S (updated st)) (failed st) tr).
Proof.
  unfold process_coffee, update_coffee_embedding.
  destruct (c_flavor_tags c) as [[|t ts]|]; cbn [tags_falsy]; try (eexists; reflexivity).
  destruct (fallback_some_prim (t :: ts)) as [v Hv]. rewrite Hv.
  pose proof (generate_fallback_embedding_length py_hash _ _ Hv) as Hlen.
  destruct v as [|x xs]; [discriminate|]. eexists; reflexivity.
Qed.

Lemma count_tagged_le (cs : list coffee) : (count_tagged cs <= List.length cs)%nat.
Proof. unfold count_tagged. apply filter_length_le. Qed.

Lemma dry_fallback_run_loop (batch_size : Z) (coffees : list coffee) :
  (0 < batch_size)%Z ->
  exists tr, loop false true batch_size coffees (mk_state 0 0 [])
    = Ok (mk_state (count_tagged coffees) (List.length coffees - count_tagged coffees) tr).
Proof.
  intro Hb. rewrite run_loop_pos by exact Hb.
  assert (Hgen : forall st, exists tr, process_all' false true st coffees
    = Ok (mk_state (updated st + count_tagged coffees)
                   (failed st + (List.length coffees - count_tagged coffees)) tr)).
  { induction coffees as [|c cs IH]; intro st.
    - exists (trace st). cbn. rewrite !Nat.add_0_r. destruct st; reflexivity.
    - cbn [process_all]. destruct (process_dry_fallback_prim st c) as [tr1 Hp]. rewrite Hp.
      pose proof (count_tagged_le cs) as Hle.
      unfold count_tagged in *. cbn [filter List.length].
      destruct (tags_falsy (c_flavor_tags c)); cbn [negb];
        match goal with |- context [process_all' false true ?s cs] =>
          destruct (IH s) as [tr Htr]; rewrite Htr; exists tr end;
        cbn [updated failed List.length]; f_equal; f_equal; lia. }
  destruct (Hgen (mk_state 0 0 [])) as [tr Htr]. exists tr. rewrite Htr. reflexivity.
Qed.

(** X11: with the binary64 fallback and a non-zero batch size, the batch loop
    with its waits can only raise an OverflowError from [time.sleep], and
    only when [args.delay] or [args.batch_delay] overflows there; with both
    delays in range it returns, whatever the remote services answer. *)
Theorem timed_loop_raises_only_overflow (delay batch_delay : float)
  (has_openai dry_run : bool) (batch_size : Z) (coffees : list coffee) (st : run_state) :
  batch_size <> 0%Z ->
  match timed_loop py_hash openai_embed rpc_update float_str delay batch_delay
          has_openai dry_run batch_size coffees st with
  | Ok _ => True
  | Raise e =>
      e = OverflowError /\ (sleep_overflows delay || sleep_overflows batch_delay)%bool = true
  end.
Proof.
  intro Hb.
  pose proof (timed_plain_rel py_hash openai_embed rpc_update float_str delay batch_delay
                has_openai dry_run batch_size coffees st) as Hr.
  assert (Hl : exists st', loop has_openai dry_run batch_size coffees st = Ok st').
  { unfold run_loop.
    replace (batch_size =? 0)%Z with false by (symmetry; apply Z.eqb_neq; exact Hb).
    destruct (batch_size <? 0)%Z; [eexists; reflexivity|].
    apply process_batches_ok_prim. }
  destruct Hl as [st' Hl]. rewrite Hl in Hr.
  destruct (timed_loop _ _ _ _ _ _ _ _ _ _ _) as [[st1 t1]|e]; [exact I | exact Hr].
Qed.

(** X12: a dry run without OpenAI, with the binary64 fallback, a positive
    batch size and both delays in range, returns and counts the records with
    a non-empty tag list as updated and all others as failed. *)
Theorem dry_fallback_counts (delay batch_delay : float) (batch_size : Z)
  (coffees : list coffee) :
  (0 < batch_size)%Z -> sleep_overflows delay = false -> sleep_overflows batch_delay = false ->
  exists tr ticks,
    timed_loop py_hash openai_embed rpc_update float_str delay batch_delay false true
      batch_size coffees (mk_state 0 0 [])
    = Ok (mk_state (count_tagged coffees) (List.length coffees - count_tagged coffees) tr, ticks).
Proof.
  intros Hb Hd Hbd.
  pose proof (timed_plain_rel py_hash openai_embed rpc_update float_str delay batch_delay
                false true batch_size coffees (mk_state 0 0 [])) as Hr.
  destruct (dry_fallback_run_loop batch_size coffees Hb) as [tr Hl].
  rewrite Hl in Hr. exists tr.
  destruct (timed_loop _ _ _ _ _ _ _ _ _ _ _) as [[st1 t1]|e].
  - subst st1. exists t1. reflexivity.
  - rewrite Hd, Hbd in Hr. destruct Hr as [_ Hr]. discriminate Hr.
Qed.

End RunnerFloat.


Lemma batch_headers_app (l1 l2 : list tick) :
  batch_headers (l1 ++ l2) = batch_headers l1 ++ batch_headers l2.
Proof. apply flat_map_app. Qed.

Lemma progress_lines_app (l1 l2 : list tick) :
  progress_lines (l1 ++ l2) = progress_lines l1 ++ progress_lines l2.
Proof. apply flat_map_app. Qed.

Lemma request_sleeps_app (l1 l2 : list tick) :
  request_sleeps (l1 ++ l2) = (request_sleeps l1 + request_sleeps l2)%nat.
Proof. unfold request_sleeps. rewrite filter_app, length_app. reflexivity. Qed.

Lemma batch_sleeps_app (l1 l2 : list tick) :
  batch_sleeps (l1 ++ l2) = (batch_sleeps l1 + batch_sleeps l2)%nat.
Proof. unfold batch_sleeps. rewrite filter_app, length_app. reflexivity. Qed.

Lemma only_request_sleeps (d : float) (l : list tick) :
  (forall t, In t l -> t = TSleepRequest d) ->
  batch_headers l = [] /\ progress_lines l = [] /\ batch_sleeps l = 0%nat /\
  request_sleeps l = List.length l.
Proof.
  induction l as [|t l IH]; intro Hl; [repeat split|].
  rewrite (Hl t (or_introl eq_refl)).
  destruct IH as [H1 [H2 [H3 H4]]]; [intros t' Ht'; apply Hl; right; exact Ht'|].
  change (TSleepRequest d :: l) with ([TSleepRequest d] ++ l).
  rewrite batch_headers_app, progress_lines_app, batch_sleeps_app, request_sleeps_app,
    H1, H2, H3, H4. repeat split.
Qed.

Lemma range_from_nil (fuel i total bs : nat) :
  (total <= i)%nat -> range_from fuel i total bs = [].
Proof.
  intro Hi. destruct fuel; [reflexivity|]. cbn [range_from].
  replace (i <? total)%nat with false by (symmetry; apply Nat.ltb_ge; exact Hi). reflexivity.
Qed.

Section TimedTicks.
Context {F : Type} `{PyFloat F}.
Variable py_hash : string -> Z.
Variable openai_embed : string -> option (list F).
Variable rpc_update : Z -> string -> rpc_result.
Variable float_str : F -> string.
Variables (delay batch_delay : float) (has_openai dry_run : bool).
Variables (coffees : list coffee) (bs : nat).
Hypothesis bs_pos : (0 < bs)%nat.

Local Abbreviation process_all' :=
  (process_all py_hash openai_embed rpc_update float_str has_openai dry_run).
Local Abbreviation tround :=
  (timed_round py_hash openai_embed rpc_update float_str delay batch_delay has_openai dry_run bs coffees).
Local Abbreviation sleep_of batch :=
  (fun c : coffee => if (PrimFloat.ltb 0 delay && negb (coffee_eqb c (last batch c)))%bool
                     then [TSleepRequest delay] else []).
Local Abbreviation slice j := (firstn bs (skipn j coffees)).
Local Abbreviation total := (List.length coffees).

Lemma sleep_of_only (batch cs : list coffee) (t : tick) :
  In t (flat_map (sleep_of batch) cs) -> t = TSleepRequest delay.
Proof.
  intro Ht. apply in_flat_map in Ht. destruct Ht as [c [_ Hc]].
  destruct (_ && _)%bool; [destruct Hc as [<-|[]]; reflexivity | destruct Hc].
Qed.

Lemma tfold_ticks (fuel i : nat) (st st' : run_state) (ticks ticks' : list tick) :
  (total <= i + fuel)%nat ->
  fold_left tround (range_from fuel i total bs) (Ok (st, ticks)) = Ok (st', ticks') ->
  exists nt, ticks' = ticks ++ nt /\
    batch_headers nt
    = map (fun j => (j / bs + 1, (total + bs - 1) / bs, List.length (slice j)))%nat
          (range_from fuel i total bs) /\
    request_sleeps nt
    = list_sum (map (fun j => List.length (flat_map (sleep_of (slice j)) (slice j)))
                    (range_from fuel i total bs)) /\
    batch_sleeps nt
    = List.length (filter (fun j => ((j + bs <? total)%nat && PrimFloat.ltb 0 batch_delay)%bool)
                          (range_from fuel i total bs)) /\
    map (fun '(p, t, u, f) => p) (progress_lines nt)
    = map (fun j => j + List.length (slice j))%nat (range_from fuel i total bs) /\
    Forall (fun '(p, t, u, f) => t = total /\ u + f + i = updated st + failed st + p)%nat
           (progress_lines nt).
Proof.
  revert i st ticks; induction fuel as [|f IH]; intros i st ticks Hf Hfold.
  - cbn [range_from fold_left] in Hfold |- *. injection Hfold as <- <-.
    exists []. rewrite app_nil_r. repeat split; constructor.
  - cbn [range_from] in Hfold |- *.
    destruct (i <? total)%nat eqn:Ei.
    2: { cbn [fold_left] in Hfold. injection Hfold as <- <-.
         exists []. rewrite app_nil_r. repeat split; constructor. }
    apply Nat.ltb_lt in Ei. cbn [fold_left] in Hfold.
    pose proof (tround_spec py_hash openai_embed rpc_update float_str delay batch_delay
                  has_openai dry_run coffees bs i st ticks) as Hr.
    destruct (tround (Ok (st, ticks)) i) as [[st1 ticks1]|e1] eqn:Eround.
    2: { rewrite tfold_raise in Hfold. discriminate. }
    destruct (process_all' st (slice i)) as [st2|e2] eqn:Ep; [|contradiction].
    destruct Hr as [<- Ht1].
    assert (Hf' : (total <= i + bs + f)%nat) by (pose proof bs_pos; lia).
    destruct (IH (i + bs)%nat st1 ticks1 Hf' Hfold)
      as [nt2 [Ht2 [Hh2 [Hr2 [Hb2 [Hp2 Hf2]]]]]].
    pose proof (only_request_sleeps delay (flat_map (sleep_of (slice i)) (slice i))
                  (sleep_of_only (slice i) (slice i))) as [S1 [S2 [S3 S4]]].
    set (bsl := if ((i + bs <? total)%nat && PrimFloat.ltb 0 batch_delay)%bool
                then [TSleepBatch batch_delay] else []) in *.
    assert (Hbsl : batch_headers bsl = [] /\ progress_lines bsl = [] /\ request_sleeps bsl = 0%nat /\
                   batch_sleeps bsl = (if ((i + bs <? total)%nat && PrimFloat.ltb 0 batch_delay)%bool
                                       then 1 else 0)%nat)
      by (unfold bsl; destruct (_ && _)%bool; repeat split).
    destruct Hbsl as [B1 [B2 [B3 B4]]].
    exists ([TBatch (i / bs + 1) ((total + bs - 1) / bs) (List.length (slice i))]
            ++ flat_map (sleep_of (slice i)) (slice i)
            ++ [TProgress (i + List.length (slice i)) total (updated st1) (failed st1)]
            ++ bsl ++ nt2).
    rewrite Ht2, Ht1, <- !app_assoc.
    rewrite !batch_headers_app, !request_sleeps_app, !batch_sleeps_app, !progress_lines_app,
      S1, S2, S3, S4, B1, B2, B3, B4, Hh2, Hr2, Hb2.
    cbn [batch_headers progress_lines flat_map app map list_sum filter].
    split; [reflexivity|]. split; [reflexivity|]. split.
    { unfold request_sleeps. cbn [filter is_request_sleep List.length]. unfold list_sum; cbn [fold_right]. lia. }
    split.
    { unfold batch_sleeps. cbn [filter is_batch_sleep].
      destruct (_ && _)%bool; cbn [List.length]; reflexivity. }
    cbn [map app]. rewrite Hp2. split; [reflexivity|].
    pose proof (process_all_total py_hash openai_embed rpc_update float_str
                  has_openai dry_run (slice i) st st1 Ep) as Htot.
    constructor; [split; [reflexivity | lia]|].
    destruct (Nat.lt_ge_cases (i + bs) total) as [Hlt|Hge].
    + assert (Hlen : List.length (slice i) = bs)
        by (rewrite length_firstn, length_skipn; lia).
      rewrite Forall_forall in Hf2 |- *. intros [[[p t] u] f0] Hin.
      destruct (Hf2 _ Hin) as [Ht Hu]. split; [exact Ht | lia].
    + rewrite (range_from_nil f (i + bs) total bs Hge) in Hp2.
      destruct (progress_lines nt2); [constructor | discriminate].
Qed.

End TimedTicks.

Lemma range_from_closed (fuel i n b : nat) :
  (0 < b)%nat -> (n <= i + fuel)%nat ->
  range_from fuel i n b = map (fun k => i + k * b)%nat (seq 0 ((n - i + b - 1) / b)).
Proof.
  intro Hb. revert i; induction fuel as [|f IH]; intros i Hf.
  - replace ((n - i + b - 1) / b)%nat with 0%nat; [reflexivity|].
    symmetry; apply Nat.div_small; lia.
  - cbn [range_from]. destruct (i <? n)%nat eqn:Ei.
    + apply Nat.ltb_lt in Ei. rewrite IH by lia.
      replace ((n - i + b - 1) / b)%nat with (S ((n - (i + b) + b - 1) / b)).
      * cbn [seq map]. rewrite Nat.mul_0_l, Nat.add_0_r. f_equal.
        rewrite <- seq_shift, map_map. apply map_ext. intro k. lia.
      * destruct (Nat.le_gt_cases b (n - i)) as [Hle|Hgt].
        -- replace (n - i + b - 1)%nat with (1 * b + (n - (i + b) + b - 1))%nat by lia.
           rewrite Nat.div_add_l by lia. reflexivity.
        -- replace (n - (i + b) + b - 1)%nat with (b - 1)%nat by lia.
           rewrite (Nat.div_small (b - 1)) by lia.
           replace (n - i + b - 1)%nat with (1 * b + (n - i - 1))%nat by lia.
           rewrite Nat.div_add_l, Nat.div_small by lia. reflexivity.
    + apply Nat.ltb_ge in Ei.
      replace ((n - i + b - 1) / b)%nat with 0%nat; [reflexivity|].
      symmetry; apply Nat.div_small; lia.
Qed.

Lemma range_from_in (fuel i n b j : nat) :
  In j (range_from fuel i n b) -> (i <= j < n)%nat.
Proof.
  revert i; induction fuel as [|f IH]; intros i Hj; cbn [range_from] in Hj; [destruct Hj|].
  destruct (i <? n)%nat eqn:Ei; [|destruct Hj].
  apply Nat.ltb_lt in Ei. destruct Hj as [<-|Hj]; [lia|].
  apply IH in Hj. lia.
Qed.

Lemma range_from_count_next (fuel i n b : nat) :
  (0 < b)%nat -> (n <= i + fuel)%nat ->
  List.length (filter (fun j => (j + b <? n)%nat) (range_from fuel i n b))
  = (List.length (range_from fuel i n b) - 1)%nat.
Proof.
  intro Hb. revert i; induction fuel as [|f IH]; intros i Hf; [reflexivity|].
  cbn [range_from]. destruct (i <? n)%nat eqn:Ei; [|reflexivity].
  apply Nat.ltb_lt in Ei. cbn [filter List.length].
  destruct (i + b <? n)%nat eqn:Eb.
  - apply Nat.ltb_lt in Eb. cbn [List.length]. rewrite IH by lia.
    destruct f as [|f']; [lia|]. cbn [range_from].
    replace (i + b <? n)%nat with true by (symmetry; apply Nat.ltb_lt; lia).
    cbn [List.length]. lia.
  - apply Nat.ltb_ge in Eb. rewrite (range_from_nil f (i + b) n b Eb). reflexivity.
Qed.

Lemma sum_pred (l : list nat) :
  Forall (fun x => 1 <= x)%nat l ->
  (list_sum (map (fun x => x - 1) l) + List.length l = list_sum l)%nat.
Proof.
  induction l as [|x l IH]; intro Hl; [reflexivity|].
  inversion Hl as [|? ? Hx Hl']; subst. specialize (IH Hl').
  unfold list_sum in *; cbn [map fold_right List.length]. lia.
Qed.

Lemma opt_eqb_refl {A} (eqb : A -> A -> bool) (a : option A) :
  (forall x, eqb x x = true) -> opt_eqb eqb a a = true.
Proof. intro Hr. destruct a; cbn; [apply Hr | reflexivity]. Qed.

Lemma strings_eqb_refl (l : list string) : strings_eqb l l = true.
Proof. induction l as [|s l IH]; cbn; [reflexivity|]. rewrite String.eqb_refl. exact IH. Qed.

Lemma coffee_eqb_refl (c : coffee) : coffee_eqb c c = true.
Proof.
  unfold coffee_eqb. rewrite Z.eqb_refl, !opt_eqb_refl;
    auto using String.eqb_refl, strings_eqb_refl.
Qed.

Lemma coffee_eqb_id (a b : coffee) : coffee_eqb a b = true -> c_id a = c_id b.
Proof.
  unfold coffee_eqb. intro He. repeat (apply andb_prop in He; destruct He as [He _]).
  apply Z.eqb_eq. exact He.
Qed.

Lemma batch_request_sleeps (delay : float) (batch : list coffee) :
  NoDup (map c_id batch) ->
  List.length (flat_map (fun c => if (PrimFloat.ltb 0 delay && negb (coffee_eqb c (last batch c)))%bool
                                  then [TSleepRequest delay] else []) batch)
  = (if PrimFloat.ltb 0 delay then List.length batch - 1 else 0)%nat.
Proof.
  intro Hnd. destruct (PrimFloat.ltb 0 delay) eqn:Ed; cbn [andb].
  2: { clear Hnd. induction batch as [|c cs IH]; [reflexivity|]. exact IH. }
  destruct batch as [|c0 cs0]; [reflexivity|].
  destruct (exists_last (l := c0 :: cs0) ltac:(discriminate)) as [pre [x Hx]].
  rewrite Hx in Hnd |- *. rewrite length_app, flat_map_app. cbn [List.length].
  rewrite map_app in Hnd. cbn [map] in Hnd.
  apply NoDup_remove_2 in Hnd. rewrite app_nil_r in Hnd.
  cbn [flat_map]. rewrite last_last, coffee_eqb_refl. cbn [negb app List.length].
  assert (Hsame : forall (g : coffee -> list tick) (l : list coffee),
            (forall c, In c l -> g c = [TSleepRequest delay]) ->
            List.length (flat_map g l) = List.length l).
  { intros g l Hg. induction l as [|c l IH]; [reflexivity|].
    cbn [flat_map]. rewrite length_app, (Hg c (or_introl eq_refl)), IH; [reflexivity|].
    intros c' Hc'. apply Hg. right. exact Hc'. }
  rewrite app_nil_r, Hsame; [lia|]. intros c Hc. rewrite last_last.
  destruct (coffee_eqb c x) eqn:E; [|reflexivity].
  exfalso. apply Hnd. apply coffee_eqb_id in E. rewrite <- E. apply in_map. exact Hc.
Qed.

Lemma timed_loop_fold {F} `{PyFloat F} py_hash openai_embed rpc_update float_str
  (delay batch_delay : float) (has_openai dry_run : bool) (batch_size : Z)
  (coffees : list coffee) (st st' : run_state) (ticks : list tick) :
  (0 < batch_size)%Z ->
  timed_loop py_hash openai_embed rpc_update float_str delay batch_delay has_openai dry_run
    batch_size coffees st = Ok (st', ticks) ->
  exists Hb : (0 < Z.to_nat batch_size)%nat,
  fold_left (timed_round py_hash openai_embed rpc_update float_str delay batch_delay
               has_openai dry_run (Z.to_nat batch_size) coffees)
    (range_from (List.length coffees) 0 (List.length coffees) (Z.to_nat batch_size))
    (Ok (st, [])) = Ok (st', ticks).
Proof.
  intros Hpos Hl. unfold timed_loop in Hl.
  replace (batch_size =? 0)%Z with false in Hl by (symmetry; apply Z.eqb_neq; lia).
  replace (batch_size <? 0)%Z with false in Hl by (symmetry; apply Z.ltb_ge; lia).
  assert (Hb : (0 < Z.to_nat batch_size)%nat) by (apply (Z2Nat.inj_lt 0); lia). exists Hb. exact Hl.
Qed.

(** X17: for [batch_size > 0] the loop logs one header per batch, numbered
    1 to [ceil(n / batch_size)], each with that total and the batch's length
    [min(batch_size, n - k * batch_size)]. *)
Theorem timed_loop_batch_headers {F} `{PyFloat F} py_hash openai_embed rpc_update float_str
  (delay batch_delay : float) (has_openai dry_run : bool) (batch_size : Z)
  (coffees : list coffee) (st st' : run_state) (ticks : list tick) :
  (0 < batch_size)%Z ->
  timed_loop py_hash openai_embed rpc_update float_str delay batch_delay has_openai dry_run
    batch_size coffees st = Ok (st', ticks) ->
  let b := Z.to_nat batch_size in
  let n := List.length coffees in
  let nb := ((n + b - 1) / b)%nat in
  batch_headers ticks = map (fun k => (S k, nb, Nat.min b (n - k * b)))%nat (seq 0 nb).
Proof.
  intros Hpos Hl b n nb.
  destruct (timed_loop_fold py_hash openai_embed rpc_update float_str delay batch_delay
              has_openai dry_run batch_size coffees st st' ticks Hpos Hl) as [Hb Hf].
  destruct (tfold_ticks py_hash openai_embed rpc_update float_str delay batch_delay
              has_openai dry_run coffees b Hb (List.length coffees) 0 st st' [] ticks
              ltac:(lia) Hf) as [nt [Ht [Hh _]]].
  cbn [app] in Ht. subst ticks. rewrite Hh.
  rewrite range_from_closed by lia. rewrite map_map, Nat.sub_0_r.
  apply map_ext. intro k.
  rewrite Nat.add_0_l, Nat.div_mul by lia.
  rewrite length_firstn, length_skipn. f_equal. f_equal. lia.
Qed.

Lemma before_last_batch (n b k : nat) :
  (0 < b)%nat -> (k < (n + b - 1) / b)%nat -> (k * b < n)%nat.
Proof.
  intros Hb Hk. pose proof (Nat.div_mod (n + b - 1) b ltac:(lia)) as Hd.
  pose proof (Nat.mod_bound_pos (n + b - 1) b ltac:(lia) Hb) as Hm.
  set (q := ((n + b - 1) / b)%nat) in *. set (r := ((n + b - 1) mod b)%nat) in *.
  assert (Hq : (b * (k + 1) <= b * q)%nat) by (apply Nat.mul_le_mono_l; lia).
  nia.
Qed.

(** X18: for [batch_size > 0], starting from zero counters, the progress
    lines report [min(n, (k + 1) * batch_size)] processed records after batch
    [k], out of [n], and [updated + failed] always equals the processed
    count. *)
Theorem timed_loop_progress {F} `{PyFloat F} py_hash openai_embed rpc_update float_str
  (delay batch_delay : float) (has_openai dry_run : bool) (batch_size : Z)
  (coffees : list coffee) (st' : run_state) (ticks : list tick) :
  (0 < batch_size)%Z ->
  timed_loop py_hash openai_embed rpc_update float_str delay batch_delay has_openai dry_run
    batch_size coffees (mk_state 0 0 []) = Ok (st', ticks) ->
  let b := Z.to_nat batch_size in
  let n := List.length coffees in
  let nb := ((n + b - 1) / b)%nat in
  map (fun '(p, t, u, f) => p) (progress_lines ticks)
  = map (fun k => Nat.min n (S k * b))%nat (seq 0 nb) /\
  Forall (fun '(p, t, u, f) => t = n /\ u + f = p)%nat (progress_lines ticks).
Proof.
  intros Hpos Hl b n nb.
  destruct (timed_loop_fold py_hash openai_embed rpc_update float_str delay batch_delay
              has_openai dry_run batch_size coffees _ st' ticks Hpos Hl) as [Hb Hf].
  destruct (tfold_ticks py_hash openai_embed rpc_update float_str delay batch_delay
              has_openai dry_run coffees b Hb (List.length coffees) 0 _ st' [] ticks
              ltac:(lia) Hf) as [nt [Ht [_ [_ [_ [Hp Hu]]]]]].
  cbn [app] in Ht. subst ticks. split.
  - rewrite Hp, range_from_closed by lia. rewrite map_map, Nat.sub_0_r.
    apply map_ext_in. intros k Hk. apply in_seq in Hk.
    pose proof (before_last_batch n b k Hb ltac:(lia)).
    rewrite length_firstn, length_skipn. fold n. lia.
  - revert Hu. apply Forall_impl. intros [[[p t] u] f]. cbn [updated failed]. lia.
Qed.

(** X19: for [batch_size > 0] the loop waits between batches exactly
    [ceil(n / batch_size) - 1] times when [batch_delay > 0], and never
    otherwise. *)
Theorem timed_loop_batch_sleeps {F} `{PyFloat F} py_hash openai_embed rpc_update float_str
  (delay batch_delay : float) (has_openai dry_run : bool) (batch_size : Z)
  (coffees : list coffee) (st st' : run_state) (ticks : list tick) :
  (0 < batch_size)%Z ->
  timed_loop py_hash openai_embed rpc_update float_str delay batch_delay has_openai dry_run
    batch_size coffees st = Ok (st', ticks) ->
  let b := Z.to_nat batch_size in
  let n := List.length coffees in
  batch_sleeps ticks = (if PrimFloat.ltb 0 batch_delay then (n + b - 1) / b - 1 else 0)%nat.
Proof.
  intros Hpos Hl b n.
  destruct (timed_loop_fold py_hash openai_embed rpc_update float_str delay batch_delay
              has_openai dry_run batch_size coffees st st' ticks Hpos Hl) as [Hb Hf].
  destruct (tfold_ticks py_hash openai_embed rpc_update float_str delay batch_delay
              has_openai dry_run coffees b Hb (List.length coffees) 0 st st' [] ticks
              ltac:(lia) Hf) as [nt [Ht [_ [_ [Hs _]]]]].
  cbn [app] in Ht. subst ticks. rewrite Hs.
  destruct (PrimFloat.ltb 0 batch_delay).
  - rewrite (filter_ext _ (fun j => (j + b <? List.length coffees)%nat))
      by (intro j; apply andb_true_r).
    rewrite range_from_count_next by lia.
    rewrite range_from_closed, length_map, length_seq, Nat.sub_0_r by lia. reflexivity.
  - rewrite (filter_ext _ (fun _ => false)) by (intro j; apply andb_false_r).
    generalize (range_from (List.length coffees) 0 (List.length coffees) b) as R.
    clear Hf Hs Hl. intro R. induction R as [|j R IH]; [reflexivity | exact IH].
Qed.

(** X20: for [batch_size > 0] and distinct record ids, the loop waits between
    requests once per record except the last of each batch when [delay > 0]
    ([n - ceil(n / batch_size)] waits), and never otherwise. *)
Theorem timed_loop_request_sleeps {F} `{PyFloat F} py_hash openai_embed rpc_update float_str
  (delay batch_delay : float) (has_openai dry_run : bool) (batch_size : Z)
  (coffees : list coffee) (st st' : run_state) (ticks : list tick) :
  (0 < batch_size)%Z ->
  NoDup (map c_id coffees) ->
  timed_loop py_hash openai_embed rpc_update float_str delay batch_delay has_openai dry_run
    batch_size coffees st = Ok (st', ticks) ->
  let b := Z.to_nat batch_size in
  let n := List.length coffees in
  request_sleeps ticks = (if PrimFloat.ltb 0 delay then n - (n + b - 1) / b else 0)%nat.
Proof.
  intros Hpos Hnd Hl b n.
  destruct (timed_loop_fold py_hash openai_embed rpc_update float_str delay batch_delay
              has_openai dry_run batch_size coffees st st' ticks Hpos Hl) as [Hb Hf].
  destruct (tfold_ticks py_hash openai_embed rpc_update float_str delay batch_delay
              has_openai dry_run coffees b Hb (List.length coffees) 0 st st' [] ticks
              ltac:(lia) Hf) as [nt [Ht [_ [Hr _]]]].
  cbn [app] in Ht. subst ticks. rewrite Hr.
  set (R := range_from (List.length coffees) 0 (List.length coffees) b).
  rewrite (map_ext_in _ (fun j => if PrimFloat.ltb 0 delay
                                  then List.length (firstn b (skipn j coffees)) - 1 else 0)%nat).
  2: { intros j _. apply batch_request_sleeps.
       rewrite <- firstn_map, <- skipn_map.
       apply (NoDup_app_remove_r _ (skipn b (skipn j (map c_id coffees)))).
       rewrite firstn_skipn.
       apply (NoDup_app_remove_l (firstn j (map c_id coffees))).
       rewrite firstn_skipn. exact Hnd. }
  destruct (PrimFloat.ltb 0 delay).
  - assert (Hlen : List.length R = ((n + b - 1) / b)%nat)
      by (unfold R; rewrite range_from_closed, length_map, length_seq, Nat.sub_0_r by lia;
          reflexivity).
    assert (Hsum : list_sum (map (fun j => List.length (firstn b (skipn j coffees))) R) = n).
    { rewrite <- (map_map (fun j => firstn b (skipn j coffees)) (@List.length coffee)).
      rewrite <- length_concat. unfold R.
      rewrite (range_batches_concat coffees b Hb) by lia. reflexivity. }
    assert (Hpos1 : Forall (fun x => 1 <= x)%nat
                      (map (fun j => List.length (firstn b (skipn j coffees))) R)).
    { apply Forall_forall. intros x Hx. apply in_map_iff in Hx.
      destruct Hx as [j [<- Hj]]. apply range_from_in in Hj.
      rewrite length_firstn, length_skipn. lia. }
    pose proof (sum_pred _ Hpos1) as Hp.
    rewrite map_map, length_map, Hlen, Hsum in Hp.
    lia.
  - clearbody R. clear Hf Hr Hl. induction R as [|j R IH]; [reflexivity|].
    unfold list_sum in *. cbn [map fold_right]. exact IH.
Qed.

Lemma generate_fallback_embedding_layout_witness :
  generate_fallback_embedding (Fixtures.hash_const 3) ["fruity"%string] = Some Fixtures2.fruity_vec /\
  exists normalized,
    normalize (base_of_tags ["fruity"%string]) = Some normalized /\
    List.length normalized = 5%nat /\
    forall k, (k < VECTOR_DIMENSIONS)%nat ->
      nth k Fixtures2.fruity_vec (f_of_Z 0)
      = f_mul (nth (k mod 5) normalized (f_of_Z 0)) (position_factor (Fixtures.hash_const 3) k).
Proof.
  assert (Hg : generate_fallback_embedding (Fixtures.hash_const 3) ["fruity"%string]
               = Some Fixtures2.fruity_vec) by (vm_compute; reflexivity).
  split; [exact Hg|].
  exact (generate_fallback_embedding_layout (Fixtures.hash_const 3) _ _ Hg).
Defined.

Lemma get_coffee_data_null_sync_witness :
  In Fixtures.old_embedded [Fixtures.old_embedded] /\
  Py.truthy_str (coffee_updated Fixtures.old_embedded) = true /\
  get_coffee_data (Some [Fixtures.old_embedded]) (Some (None :: [])) false = [].
Proof.
  assert (Hin : In Fixtures.old_embedded [Fixtures.old_embedded]) by (left; reflexivity).
  assert (Hu : Py.truthy_str (coffee_updated Fixtures.old_embedded) = true) by reflexivity.
  split; [exact Hin|]. split; [exact Hu|].
  exact (get_coffee_data_null_sync _ [] _ Hin Hu).
Defined.

Lemma get_coffee_data_later_sync_witness :
  Py.str_gt "2024-01-15T00:00:00"%string Fixtures.last_sync = false /\
  incl (get_coffee_data (Some Fixtures2.tagged_mix) (Some (Some Fixtures.last_sync :: [])) false)
       (get_coffee_data (Some Fixtures2.tagged_mix)
          (Some (Some "2024-01-15T00:00:00"%string :: [])) false).
Proof.
  assert (Ht : Py.str_gt "2024-01-15T00:00:00"%string Fixtures.last_sync = false)
    by reflexivity.
  split; [exact Ht|].
  exact (get_coffee_data_later_sync _ _ _ [] [] Ht).
Defined.

Lemma live_updated_is_rpc_successes_witness :
  run_loop (Fixtures.hash_const 0) Fixtures.openai_down Fixtures.rpc_all_true
    Fixtures.float_repr false false 5 Fixtures.thirteen (mk_state 0 0 [])
  = Ok Fixtures2.live_state /\
  updated Fixtures2.live_state = rpc_successes Fixtures.rpc_all_true (trace Fixtures2.live_state).
Proof.
  assert (Hl : run_loop (Fixtures.hash_const 0) Fixtures.openai_down Fixtures.rpc_all_true
                 Fixtures.float_repr false false 5 Fixtures.thirteen (mk_state 0 0 [])
               = Ok Fixtures2.live_state) by (vm_compute; reflexivity).
  split; [exact Hl|].
  exact (live_updated_is_rpc_successes _ _ _ _ _ _ _ _ Hl).
Defined.

Lemma rpc_writes_in_order_witness :
  run_loop (Fixtures.hash_const 0) Fixtures.openai_down Fixtures.rpc_all_true
    Fixtures.float_repr false false 5 Fixtures.thirteen (mk_state 0 0 [])
  = Ok Fixtures2.live_state /\
  subseq (rpc_ids (trace Fixtures2.live_state)) (map c_id Fixtures.thirteen) /\
  (NoDup (map c_id Fixtures.thirteen) -> NoDup (rpc_ids (trace Fixtures2.live_state))).
Proof.
  assert (Hl : run_loop (Fixtures.hash_const 0) Fixtures.openai_down Fixtures.rpc_all_true
                 Fixtures.float_repr false false 5 Fixtures.thirteen (mk_state 0 0 [])
               = Ok Fixtures2.live_state) by (vm_compute; reflexivity).
  split; [exact Hl|].
  exact (rpc_writes_in_order _ _ _ _ _ _ _ _ _ Hl).
Defined.

Lemma rpc_payload_shape_witness :
  run_loop (Fixtures.hash_const 0) Fixtures.openai_down Fixtures.rpc_all_true
    Fixtures.float_repr false false 5 Fixtures.thirteen (mk_state 0 0 [])
  = Ok Fixtures2.live_state /\
  forall i s, In (EvRPC i s) (trace Fixtures2.live_state) ->
    In i (map c_id Fixtures.thirteen) /\
    exists v, List.length v = VECTOR_DIMENSIONS /\
              s = ("[" ++ join "," (map Fixtures.float_repr v) ++ "]")%string.
Proof.
  assert (Hl : run_loop (Fixtures.hash_const 0) Fixtures.openai_down Fixtures.rpc_all_true
                 Fixtures.float_repr false false 5 Fixtures.thirteen (mk_state 0 0 [])
               = Ok Fixtures2.live_state) by (vm_compute; reflexivity).
  split; [exact Hl|].
  exact (rpc_payload_shape _ _ _ _ _ _ _ _ _ Hl).
Defined.

Lemma timed_loop_raises_only_overflow_witness :
  5%Z <> 0%Z /\
  timed_loop (Fixtures.hash_const 0) Fixtures.openai_down Fixtures.rpc_all_true
    Fixtures.float_repr PrimFloat.infinity 3%float false false 5 Fixtures.thirteen
    (mk_state 0 0 []) = Raise OverflowError /\
  match timed_loop (Fixtures.hash_const 0) Fixtures.openai_down Fixtures.rpc_all_true
          Fixtures.float_repr PrimFloat.infinity 3%float false false 5 Fixtures.thirteen
          (mk_state 0 0 []) with
  | Ok _ => True
  | Raise e =>
      e = OverflowError /\
      (sleep_overflows PrimFloat.infinity || sleep_overflows 3%float)%bool = true
  end.
Proof.
  assert (Hb : 5%Z <> 0%Z) by discriminate.
  split; [exact Hb|]. split; [vm_compute; reflexivity|].
  exact (timed_loop_raises_only_overflow (Fixtures.hash_const 0) Fixtures.openai_down
           Fixtures.rpc_all_true Fixtures.float_repr PrimFloat.infinity 3%float false false 5
           Fixtures.thirteen (mk_state 0 0 []) Hb).
Defined.

Lemma dry_fallback_counts_witness :
  (0 < 5)%Z /\ sleep_overflows 1%float = false /\ sleep_overflows 3%float = false /\
  exists tr ticks,
    timed_loop (Fixtures.hash_const 0) Fixtures.openai_down Fixtures.rpc_all_true
      Fixtures.float_repr 1%float 3%float false true 5 Fixtures2.tagged_mix (mk_state 0 0 [])
    = Ok (mk_state (count_tagged Fixtures2.tagged_mix)
            (List.length Fixtures2.tagged_mix - count_tagged Fixtures2.tagged_mix) tr, ticks).
Proof.
  assert (Hb : (0 < 5)%Z) by reflexivity.
  assert (Hd : sleep_overflows 1%float = false) by (vm_compute; reflexivity).
  assert (Hbd : sleep_overflows 3%float = false) by (vm_compute; reflexivity).
  split; [exact Hb|]. split; [exact Hd|]. split; [exact Hbd|].
  exact (dry_fallback_counts (Fixtures.hash_const 0) Fixtures.openai_down Fixtures.rpc_all_true
           Fixtures.float_repr 1%float 3%float 5 Fixtures2.tagged_mix Hb Hd Hbd).
Defined.

Lemma main_prompt_answer_witness :
  Py.truthy_str (py_or (arg_supabase_url (Fixtures2.env_prompt "Y" 5))
                   (env_supabase_url (Fixtures2.env_prompt "Y" 5))) = true /\
  Py.truthy_str (py_or (arg_supabase_key (Fixtures2.env_prompt "Y" 5))
                   (env_supabase_key (Fixtures2.env_prompt "Y" 5))) = true /\
  create_client_ok (Fixtures2.env_prompt "Y" 5) = true /\
  Py.truthy_str (py_or (arg_openai_key (Fixtures2.env_prompt "Y" 5))
                   (env_openai_key (Fixtures2.env_prompt "Y" 5))) = false /\
  force_all (Fixtures2.env_prompt "Y" 5) = false /\
  get_coffee_data (coffees_resp (Fixtures2.env_prompt "Y" 5)) (logs_resp (Fixtures2.env_prompt "Y" 5))
    (force_all (Fixtures2.env_prompt "Y" 5)) <> [] /\
  (main (Fixtures.hash_const 0) Fixtures.openai_down Fixtures.rpc_all_true Fixtures.float_repr
     (Fixtures2.env_prompt "Y" 5) = MReturn None <->
   user_input (Fixtures2.env_prompt "Y" 5) <> "y"%string /\
   user_input (Fixtures2.env_prompt "Y" 5) <> "Y"%string).
Proof.
  assert (H1 : Py.truthy_str (py_or (arg_supabase_url (Fixtures2.env_prompt "Y" 5))
                   (env_supabase_url (Fixtures2.env_prompt "Y" 5))) = true) by reflexivity.
  assert (H2 : Py.truthy_str (py_or (arg_supabase_key (Fixtures2.env_prompt "Y" 5))
                   (env_supabase_key (Fixtures2.env_prompt "Y" 5))) = true) by reflexivity.
  assert (H3 : create_client_ok (Fixtures2.env_prompt "Y" 5) = true) by reflexivity.
  assert (H4 : Py.truthy_str (py_or (arg_openai_key (Fixtures2.env_prompt "Y" 5))
                   (env_openai_key (Fixtures2.env_prompt "Y" 5))) = false) by reflexivity.
  assert (H5 : force_all (Fixtures2.env_prompt "Y" 5) = false) by reflexivity.
  assert (H6 : get_coffee_data (coffees_resp (Fixtures2.env_prompt "Y" 5))
                 (logs_resp (Fixtures2.env_prompt "Y" 5))
                 (force_all (Fixtures2.env_prompt "Y" 5)) <> [])
    by (intro Hc; vm_compute in Hc; discriminate Hc).
  refine (conj H1 (conj H2 (conj H3 (conj H4 (conj H5 (conj H6 _)))))).
  exact (main_prompt_answer (Fixtures.hash_const 0) Fixtures.openai_down Fixtures.rpc_all_true
           Fixtures.float_repr _ H1 H2 H3 H4 H5 H6).
Defined.

Lemma main_ignores_input_witness :
  (Py.truthy_str (py_or (arg_openai_key Fixtures.env_thirteen)
                    (env_openai_key Fixtures.env_thirteen)) = true \/
   force_all Fixtures.env_thirteen = true) /\
  main (Fixtures.hash_const 0) Fixtures.openai_down Fixtures.rpc_all_true Fixtures.float_repr
    (with_input Fixtures.env_thirteen "y") =
  main (Fixtures.hash_const 0) Fixtures.openai_down Fixtures.rpc_all_true Fixtures.float_repr
    Fixtures.env_thirteen.
Proof.
  assert (Hf : Py.truthy_str (py_or (arg_openai_key Fixtures.env_thirteen)
                                (env_openai_key Fixtures.env_thirteen)) = true \/
               force_all Fixtures.env_thirteen = true) by (right; reflexivity).
  split; [exact Hf|].
  exact (main_ignores_input (Fixtures.hash_const 0) Fixtures.openai_down Fixtures.rpc_all_true
           Fixtures.float_repr _ _ Hf).
Defined.

Lemma main_negative_batch_witness :
  (batch_size (Fixtures2.env_prompt "y" (-1)) < 0)%Z /\
  (main (Fixtures.hash_const 0) Fixtures.openai_down Fixtures.rpc_all_true Fixtures.float_repr
     (Fixtures2.env_prompt "y" (-1)) = MExit 1 \/
   main (Fixtures.hash_const 0) Fixtures.openai_down Fixtures.rpc_all_true Fixtures.float_repr
     (Fixtures2.env_prompt "y" (-1)) = MReturn None \/
   main (Fixtures.hash_const 0) Fixtures.openai_down Fixtures.rpc_all_true Fixtures.float_repr
     (Fixtures2.env_prompt "y" (-1)) = MReturn (Some (mk_state 0 0 []))).
Proof.
  assert (Hb : (batch_size (Fixtures2.env_prompt "y" (-1)) < 0)%Z) by reflexivity.
  split; [exact Hb|].
  exact (main_negative_batch (Fixtures.hash_const 0) Fixtures.openai_down Fixtures.rpc_all_true
           Fixtures.float_repr _ Hb).
Defined.

Lemma timed_loop_batch_headers_witness :
  (0 < 5)%Z /\
  timed_loop (Fixtures.hash_const 0) Fixtures.openai_down Fixtures.rpc_all_true
    Fixtures.float_repr 1%float 3%float false false 5 Fixtures.thirteen (mk_state 0 0 [])
  = Ok (fst Fixtures2.timed_run, snd Fixtures2.timed_run) /\
  batch_headers (snd Fixtures2.timed_run)
  = map (fun k => (S k, (13 + 5 - 1) / 5, Nat.min 5 (13 - k * 5)))%nat (seq 0 ((13 + 5 - 1) / 5)).
Proof.
  assert (Hb : (0 < 5)%Z) by reflexivity.
  assert (Hl : timed_loop (Fixtures.hash_const 0) Fixtures.openai_down Fixtures.rpc_all_true
                 Fixtures.float_repr 1%float 3%float false false 5 Fixtures.thirteen
                 (mk_state 0 0 [])
               = Ok (fst Fixtures2.timed_run, snd Fixtures2.timed_run))
    by (vm_compute; reflexivity).
  split; [exact Hb|]. split; [exact Hl|].
  exact (timed_loop_batch_headers (Fixtures.hash_const 0) Fixtures.openai_down
           Fixtures.rpc_all_true Fixtures.float_repr 1%float 3%float false false 5
           Fixtures.thirteen _ _ _ Hb Hl).
Defined.

Lemma timed_loop_progress_witness :
  (0 < 5)%Z /\
  timed_loop (Fixtures.hash_const 0) Fixtures.openai_down Fixtures.rpc_all_true
    Fixtures.float_repr 1%float 3%float false false 5 Fixtures.thirteen (mk_state 0 0 [])
  = Ok (fst Fixtures2.timed_run, snd Fixtures2.timed_run) /\
  map (fun '(p, t, u, f) => p) (progress_lines (snd Fixtures2.timed_run))
  = map (fun k => Nat.min 13 (S k * 5))%nat (seq 0 ((13 + 5 - 1) / 5)) /\
  Forall (fun '(p, t, u, f) => t = 13 /\ u + f = p)%nat (progress_lines (snd Fixtures2.timed_run)).
Proof.
  assert (Hb : (0 < 5)%Z) by reflexivity.
  assert (Hl : timed_loop (Fixtures.hash_const 0) Fixtures.openai_down Fixtures.rpc_all_true
                 Fixtures.float_repr 1%float 3%float false false 5 Fixtures.thirteen
                 (mk_state 0 0 [])
               = Ok (fst Fixtures2.timed_run, snd Fixtures2.timed_run))
    by (vm_compute; reflexivity).
  split; [exact Hb|]. split; [exact Hl|].
  exact (timed_loop_progress (Fixtures.hash_const 0) Fixtures.openai_down
           Fixtures.rpc_all_true Fixtures.float_repr 1%float 3%float false false 5
           Fixtures.thirteen _ _ Hb Hl).
Defined.

Lemma timed_loop_batch_sleeps_witness :
  (0 < 5)%Z /\
  timed_loop (Fixtures.hash_const 0) Fixtures.openai_down Fixtures.rpc_all_true
    Fixtures.float_repr 1%float 3%float false false 5 Fixtures.thirteen (mk_state 0 0 [])
  = Ok (fst Fixtures2.timed_run, snd Fixtures2.timed_run) /\
  batch_sleeps (snd Fixtures2.timed_run)
  = (if PrimFloat.ltb 0 3%float then (13 + 5 - 1) / 5 - 1 else 0)%nat.
Proof.
  assert (Hb : (0 < 5)%Z) by reflexivity.
  assert (Hl : timed_loop (Fixtures.hash_const 0) Fixtures.openai_down Fixtures.rpc_all_true
                 Fixtures.float_repr 1%float 3%float false false 5 Fixtures.thirteen
                 (mk_state 0 0 [])
               = Ok (fst Fixtures2.timed_run, snd Fixtures2.timed_run))
    by (vm_compute; reflexivity).
  split; [exact Hb|]. split; [exact Hl|].
  exact (timed_loop_batch_sleeps (Fixtures.hash_const 0) Fixtures.openai_down
           Fixtures.rpc_all_true Fixtures.float_repr 1%float 3%float false false 5
           Fixtures.thirteen _ _ _ Hb Hl).
Defined.

Lemma timed_loop_request_sleeps_witness :
  (0 < 5)%Z /\ NoDup (map c_id Fixtures.thirteen) /\
  timed_loop (Fixtures.hash_const 0) Fixtures.openai_down Fixtures.rpc_all_true
    Fixtures.float_repr 1%float 3%float false false 5 Fixtures.thirteen (mk_state 0 0 [])
  = Ok (fst Fixtures2.timed_run, snd Fixtures2.timed_run) /\
  request_sleeps (snd Fixtures2.timed_run)
  = (if PrimFloat.ltb 0 1%float then 13 - (13 + 5 - 1) / 5 else 0)%nat.
Proof.
  assert (Hb : (0 < 5)%Z) by reflexivity.
  assert (Hn : NoDup (map c_id Fixtures.thirteen))
    by (vm_compute; repeat constructor; cbn; intuition discriminate).
  assert (Hl : timed_loop (Fixtures.hash_const 0) Fixtures.openai_down Fixtures.rpc_all_true
                 Fixtures.float_repr 1%float 3%float false false 5 Fixtures.thirteen
                 (mk_state 0 0 [])
               = Ok (fst Fixtures2.timed_run, snd Fixtures2.timed_run))
    by (vm_compute; reflexivity).
  split; [exact Hb|]. split; [exact Hn|]. split; [exact Hl|].
  exact (timed_loop_request_sleeps (Fixtures.hash_const 0) Fixtures.openai_down
           Fixtures.rpc_all_true Fixtures.float_repr 1%float 3%float false false 5
           Fixtures.thirteen _ _ _ Hb Hn Hl).
Defined.
